(** * acquisitions: the authentication flow and its admission gate

    A shallow embedding of the Express handlers of the repository:
    - [securityMiddleware]            (middleware/security.middleware.js)
    - [hashPassword], [comparePassword], [createUser], [authenticateUser]
                                      (services/auth.service.js)
    - [cookies]                       (utils/cookies.js)
    - [formatValidator]               (utils/format.js)
    - [signup], [signin], [signout]   (controllers/auth.controller.js)

    The service is read from the second part of security.middleware.js and
    the controller from the second part of format.js, where the sources keep
    them.

    JavaScript values are an inductive type, objects are association lists in
    insertion order, and a handler is a computation over an explicit state
    (store, log, response under construction, calls of [next]) that either
    completes normally or throws. *)

From Stdlib Require Import String Ascii List ZArith Bool Lia.
From Stdlib Require Import DecimalString.
Import ListNotations.

Open Scope string_scope.
Open Scope list_scope.
Open Scope Z_scope.

Set Warnings "-register-all".

(* ------------------------------------------------------------------ *)
(** ** JavaScript values *)

Module JS.

Inductive value : Type :=
| Undefined
| Null
| Bool (b : bool)
| Num (n : Z)
| Str (s : string)
| Arr (items : list value)
| Obj (props : list (string * value))
| Fun (name : string).

(** An object: its own properties, in insertion order. *)
Definition object := list (string * value).

(** A thrown [Error]: its constructor name and its [message]. *)
Record error : Type := mkError { err_name : string; err_message : string }.

Definition Error (msg : string) : error := mkError "Error" msg.
Definition ReferenceError (msg : string) : error := mkError "ReferenceError" msg.
Definition TypeError (msg : string) : error := mkError "TypeError" msg.

(** What a statement or an expression evaluates to. *)
Inductive completion (A : Type) : Type :=
| Normal (a : A)
| Throw (e : error).
Arguments Normal {A} a.
Arguments Throw {A} e.

(** [ToBoolean]. *)
Definition truthy (v : value) : bool :=
  match v with
  | Undefined | Null => false
  | Bool b => b
  | Num n => negb (n =? 0)
  | Str s => negb (s =? "")%string
  | Arr _ | Obj _ | Fun _ => true
  end.

(** A default ([x = d] in a parameter list or a column): it replaces
    [undefined] only. *)
Definition default_to (v d : value) : value :=
  match v with Undefined => d | _ => v end.

(** [a || b] on values. *)
Definition or_else (a b : value) : value := if truthy a then a else b.

Definition show_Z (n : Z) : string := NilZero.string_of_int (Z.to_int n).

(** [ToString], as a template literal applies it. *)
Fixpoint to_string (v : value) : string :=
  match v with
  | Undefined => "undefined"
  | Null => "null"
  | Bool true => "true"
  | Bool false => "false"
  | Num n => show_Z n
  | Str s => s
  | Arr items =>
      String.concat ","
        (map (fun x => match x with
                       | Undefined | Null => ""
                       | _ => to_string x
                       end) items)
  | Obj _ => "[object Object]"
  | Fun name => "function " ++ name
  end.

(** [`${e}`] for a thrown error. *)
Definition error_to_string (e : error) : string :=
  err_name e ++ ": " ++ err_message e.

(** [o[k]] on an object: the first property named [k], else [undefined]. *)
Fixpoint get (o : object) (k : string) : value :=
  match o with
  | [] => Undefined
  | (k', v) :: rest => if (k' =? k)%string then v else get rest k
  end.

Fixpoint has (o : object) (k : string) : bool :=
  match o with
  | [] => false
  | (k', _) :: rest => (k' =? k)%string || has rest k
  end.

Definition keys (o : object) : list string := map fst o.

(** [o[k] = v]: an existing property keeps its place, a new one goes last. *)
Fixpoint set (o : object) (k : string) (v : value) : object :=
  match o with
  | [] => [(k, v)]
  | (k', v') :: rest =>
      if (k' =? k)%string then (k', v) :: rest else (k', v') :: set rest k v
  end.

(** [{...a, ...b}]: the properties of [b] are assigned over a copy of [a]. *)
Definition spread (a b : object) : object :=
  fold_left (fun acc kv => set acc (fst kv) (snd kv)) b a.

(** [const { [k]: _, ...rest } = o]: every property but [k]. *)
Definition omit (k : string) (o : object) : object :=
  filter (fun kv => negb (fst kv =? k)%string) o.

(** [v.k] on any value: reading a property of [undefined] or [null] throws;
    an array has its prototype's [map]. *)
Definition prop (v : value) (k : string) : completion value :=
  match v with
  | Undefined =>
      Throw (TypeError ("Cannot read properties of undefined (reading '" ++ k ++ "')"))
  | Null =>
      Throw (TypeError ("Cannot read properties of null (reading '" ++ k ++ "')"))
  | Obj props => Normal (get props k)
  | Arr items =>
      if (k =? "map")%string then Normal (Fun "map")
      else if (k =? "length")%string then Normal (Num (Z.of_nat (length items)))
      else Normal Undefined
  | Bool _ | Num _ | Str _ | Fun _ => Normal Undefined
  end.

(** [Array.isArray]. *)
Definition isArray (v : value) : bool :=
  match v with Arr _ => true | _ => false end.

(** [a === b] where [b] is a string literal. *)
Definition is_string (v : value) (lit : string) : bool :=
  match v with Str s => (s =? lit)%string | _ => false end.

(** An identifier is resolved in the scope chain; one that no scope binds
    throws a [ReferenceError]. *)
Fixpoint resolve (scope : object) (x : string) : completion value :=
  match scope with
  | [] => Throw (ReferenceError (x ++ " is not defined"))
  | (y, v) :: outer => if (y =? x)%string then Normal v else resolve outer x
  end.

Definition lower_ascii (c : ascii) : ascii :=
  let n := nat_of_ascii c in
  if (65 <=? n)%nat && (n <=? 90)%nat then ascii_of_nat (n + 32) else c.

Fixpoint lower (s : string) : string :=
  match s with
  | EmptyString => EmptyString
  | String c rest => String (lower_ascii c) (lower rest)
  end.

End JS.

Import JS.

(* ------------------------------------------------------------------ *)
(** ** Requests, responses and the state a handler runs in *)

(** The Express request, as far as the handlers read it. Header names are
    stored in lower case, as Node keeps them. *)
Record request : Type := mkRequest {
  req_body : value;
  req_user : option object;
  req_ip : value;
  req_headers : list (string * string);
  req_path : string;
  req_method : string;
  req_cookies : object
}.

(** [req.get(name)]: a header, looked up without regard to case. *)
Definition req_get (req : request) (name : string) : value :=
  match find (fun h => (fst h =? lower name)%string) (req_headers req) with
  | Some h => Str (snd h)
  | None => Undefined
  end.

(** What [res.cookie] and [res.clearCookie] were called with. *)
Inductive cookie_op : Type :=
| SetCookie (name : string) (val : value) (attrs : object)
| ClearCookie (name : string) (attrs : object).

(** The Express response: the status staged by [res.status], the body sent by
    [res.json] (none as long as nothing was sent), and the cookie calls. *)
Record response : Type := mkResponse {
  statusCode : Z;
  sent : option value;
  cookie_ops : list cookie_op
}.

Definition fresh_response : response := mkResponse 200 None [].

Inductive sink : Type := LoggerInfo | LoggerWarn | LoggerError | ConsoleError.

Inductive log_extra : Type :=
| NoExtra
| Meta (fields : object)
| Caught (e : error).

Record log_entry : Type := mkLog {
  log_sink : sink;
  log_msg : string;
  log_more : log_extra
}.

(** The [users] relation of the persistence layer: its rows, and the serial
    and the clock the store assigns [id] and the timestamps from. *)
Record store : Type := mkStore {
  rows : list object;
  next_id : Z;
  clock : Z
}.

Record state : Type := mkState {
  st_db : store;
  st_log : list log_entry;
  st_res : response;
  st_next : list (option error)
}.

(** A handler computation: runs in a state, ends normally or by a throw. *)
Definition M (A : Type) : Type := state -> completion A * state.

Definition ret {A} (a : A) : M A := fun s => (Normal a, s).

Definition throw {A} (e : error) : M A := fun s => (Throw e, s).

Definition bind {A B} (m : M A) (k : A -> M B) : M B :=
  fun s =>
    match m s with
    | (Normal a, s') => k a s'
    | (Throw e, s') => (Throw e, s')
    end.

(** [try { body } catch (e) { handler }]. *)
Definition try_catch {A} (body : M A) (handler : error -> M A) : M A :=
  fun s =>
    match body s with
    | (Normal a, s') => (Normal a, s')
    | (Throw e, s') => handler e s'
    end.

(** The completion of a call into a library. *)
Definition lift {A} (c : completion A) : M A := fun s => (c, s).

Declare Scope handler_scope.
Delimit Scope handler_scope with handler.
Notation "x <- m ;; k" := (bind m (fun x => k))
  (at level 100, m at next level, right associativity) : handler_scope.
Notation "m ;; k" := (bind m (fun _ => k))
  (at level 100, right associativity) : handler_scope.
Open Scope handler_scope.

Definition write_log (e : log_entry) : M unit :=
  fun s => (Normal tt, mkState (st_db s) (st_log s ++ [e]) (st_res s) (st_next s)).

Definition logger_info (msg : string) : M unit := write_log (mkLog LoggerInfo msg NoExtra).
Definition logger_warn (msg : string) (meta : object) : M unit :=
  write_log (mkLog LoggerWarn msg (Meta meta)).
Definition logger_error (msg : string) : M unit := write_log (mkLog LoggerError msg NoExtra).
Definition logger_error_with (msg : string) (e : error) : M unit :=
  write_log (mkLog LoggerError msg (Caught e)).
Definition console_error (msg : string) (e : error) : M unit :=
  write_log (mkLog ConsoleError msg (Caught e)).

Definition update_res (f : response -> response) : M unit :=
  fun s => (Normal tt, mkState (st_db s) (st_log s) (f (st_res s)) (st_next s)).

(** [res.status(code)]. *)
Definition res_status (code : Z) : M unit :=
  update_res (fun r => mkResponse code (sent r) (cookie_ops r)).

(** [res.json(body)]. *)
Definition res_json (body : value) : M unit :=
  update_res (fun r => mkResponse (statusCode r) (Some body) (cookie_ops r)).

(** [res.cookie(name, value, attrs)]. *)
Definition res_cookie (name : string) (val : value) (attrs : object) : M unit :=
  update_res (fun r =>
    mkResponse (statusCode r) (sent r) (cookie_ops r ++ [SetCookie name val attrs])).

(** [res.clearCookie(name, attrs)]. *)
Definition res_clearCookie (name : string) (attrs : object) : M unit :=
  update_res (fun r =>
    mkResponse (statusCode r) (sent r) (cookie_ops r ++ [ClearCookie name attrs])).

(** [next()] and [next(error)]. *)
Definition next (e : option error) : M unit :=
  fun s => (Normal tt, mkState (st_db s) (st_log s) (st_res s) (st_next s ++ [e])).

(* ------------------------------------------------------------------ *)
(** ** Collaborators outside the modelled files *)

(** [Schema.safeParse(body)]: the parsed data, or the validation error. *)
Inductive safe_parse : Type :=
| ParseOk (data : object)
| ParseFail (err : value).

(** The external decision service (Arcjet): a decision has a conclusion and
    one reason. *)
Inductive conclusion : Type := ALLOW | DENY | CHALLENGE | ERROR.

Inductive reason : Type :=
| RATE_LIMIT | BOT | SHIELD | EMAIL | SENSITIVE_INFO | FILTER | ERROR_REASON.

Record decision : Type := mkDecision {
  dec_conclusion : conclusion;
  dec_reason : reason
}.

Definition isDenied (d : decision) : bool :=
  match dec_conclusion d with DENY => true | _ => false end.
Definition isBot (r : reason) : bool :=
  match r with BOT => true | _ => false end.
Definition isShield (r : reason) : bool :=
  match r with SHIELD => true | _ => false end.
Definition isRateLimit (r : reason) : bool :=
  match r with RATE_LIMIT => true | _ => false end.

(** The argument of [slidingWindow]. *)
Record rule : Type := mkRule {
  rule_mode : string;
  rule_interval : string;
  rule_max : value;
  rule_name : string
}.

(** What the handlers call and this repository does not define, or defines in
    files that are not among the modelled ones: the process environment, the
    bcrypt and JSON primitives, the decision service, the two zod schemas
    (validations/auth.validation.js) and the token signer (utils/jwt.js).
    Each call completes with a value or throws. *)
Record collaborators : Type := mkCollaborators {
  NODE_ENV : option string;
  bcrypt_hash : value -> Z -> completion value;
  bcrypt_compare : value -> value -> completion bool;
  JSON_stringify : value -> string;
  arcjet_protect : rule -> request -> completion decision;
  signUpSchema_safeParse : value -> safe_parse;
  signInSchema_safeParse : value -> safe_parse;
  jwttoken_sign : object -> completion value
}.

(* ------------------------------------------------------------------ *)
(** ** The persistence layer ([db], [users]) *)

(** [eq(users.email, email)]: equality of text. *)
Definition email_matches (email : value) (row : object) : bool :=
  match get row "email", email with
  | Str a, Str b => (a =? b)%string
  | _, _ => false
  end.

(** [db.select().from(users).where(eq(users.email, email)).limit(1)]. *)
Definition db_select_by_email (email : value) : M (list object) :=
  fun s => (Normal (firstn 1 (filter (email_matches email) (rows (st_db s)))), s).

Definition unique_violation : error :=
  Error "duplicate key value violates unique constraint users_email_unique".

(** The row the store makes of inserted values: [id] from the serial, [role]
    defaulting to ['user'], both timestamps from the clock. *)
Definition new_row (db : store) (vals : object) : object :=
  [ ("id", Num (next_id db));
    ("name", get vals "name");
    ("email", get vals "email");
    ("password", get vals "password");
    ("role", default_to (get vals "role") (Str "user"));
    ("createdAt", Num (clock db));
    ("updatedAt", Num (clock db)) ].

(** [db.insert(users).values(vals).returning({id, name, email, role,
    created_at})]: the unique constraint on [email] is the store's. *)
Definition db_insert_returning (vals : object) : M (list object) :=
  fun s =>
    let db := st_db s in
    if existsb (email_matches (get vals "email")) (rows db) then
      (Throw unique_violation, s)
    else
      let row := new_row db vals in
      (Normal [ [ ("id", get row "id");
                  ("name", get row "name");
                  ("email", get row "email");
                  ("role", get row "role");
                  ("created_at", get row "createdAt") ] ],
       mkState (mkStore (rows db ++ [row]) (next_id db + 1) (clock db))
               (st_log s) (st_res s) (st_next s)).

(* ------------------------------------------------------------------ *)
(** ** services/auth.service.js *)

Section Handlers.

Variable C : collaborators.

Definition hashPassword (password : value) : M value :=
  try_catch
    (lift (bcrypt_hash C password 10))
    (fun e =>
       logger_error ("Password hashing error: " ++ error_to_string e) ;;
       throw (Error "Password hashing failed")).

Definition comparePassword (password hashedPassword : value) : M bool :=
  try_catch
    (lift (bcrypt_compare C password hashedPassword))
    (fun e =>
       logger_error ("Password comparison error: " ++ error_to_string e) ;;
       throw (Error "Password comparison failed")).

(** [createUser({ name, email, password, role = 'user' })]. *)
Definition createUser (args : object) : M object :=
  let name := get args "name" in
  let email := get args "email" in
  let password := get args "password" in
  let role := default_to (get args "role") (Str "user") in
  try_catch
    (existingUser <- db_select_by_email email ;;
     if (0 <? length existingUser)%nat then
       throw (Error "user already exists")
     else
       password_hash <- hashPassword password ;;
       inserted <- db_insert_returning
                     [ ("name", name); ("email", email);
                       ("password", password_hash); ("role", role) ] ;;
       match inserted with
       | newUser :: _ =>
           logger_info ("New user created with id: " ++ to_string (get newUser "id")
                        ++ ", email: " ++ to_string (get newUser "email")) ;;
           ret newUser
       | [] =>
           throw (TypeError "Cannot read properties of undefined (reading 'id')")
       end)
    (fun e =>
       logger_error ("Create user error: " ++ error_to_string e) ;;
       throw e).

(** [authenticateUser({ email, password })]. *)
Definition authenticateUser (args : object) : M object :=
  let email := get args "email" in
  let password := get args "password" in
  try_catch
    (found <- db_select_by_email email ;;
     match found with
     | [] =>
         logger_info ("Authentication failed: user not found for email "
                      ++ to_string email) ;;
         throw (Error "invalid credentials")
     | user :: _ =>
         passwordMatches <- comparePassword password (get user "password") ;;
         if negb passwordMatches then
           logger_info ("Authentication failed: invalid password for email "
                        ++ to_string email) ;;
           throw (Error "invalid credentials")
         else
           let safeUser := omit "password" user in
           logger_info ("User authenticated with id: " ++ to_string (get safeUser "id")
                        ++ ", email: " ++ to_string (get safeUser "email")) ;;
           ret safeUser
     end)
    (fun e =>
       if (err_message e =? "invalid credentials")%string then
         throw e
       else
         logger_error ("Authenticate user error: " ++ error_to_string e) ;;
         throw e).

(* ------------------------------------------------------------------ *)
(** ** utils/cookies.js *)

(** The object [cookies]: its four members. *)
Definition cookies_getOptions : object :=
  [ ("httpOnly", Bool true);
    ("secure", Bool match NODE_ENV C with
                    | Some mode => (mode =? "production")%string
                    | None => false
                    end);
    ("sameSite", Str "Lax");
    ("maxAge", Num (15 * 60 * 1000)) ].

(** [cookies.set(res, name, value, options = {})]. *)
Definition cookies_set (name : string) (val : value) (options : object) : M unit :=
  res_cookie name val (spread cookies_getOptions options).

(** [cookies.clear(res, name, options = {})]. *)
Definition cookies_clear (name : string) (options : object) : M unit :=
  res_clearCookie name (spread cookies_getOptions options).

(** [cookies.get(req, name)]. *)
Definition cookies_get (req : request) (name : string) : value :=
  get (req_cookies req) name.

(* ------------------------------------------------------------------ *)
(** ** utils/format.js *)

(** The bindings [formatValidator]'s body can see: its one parameter
    [schema], and the one top-level name of its module. The module imports
    nothing, and the runtime has no global named [errors]. *)
Definition formatValidator_scope (schema : value) : object :=
  [ ("schema", schema); ("formatValidator", Fun "formatValidator") ].

(** [formatValidator = (schema) => { ... }]: the body reads [errors]. *)
Definition formatValidator (schema : value) : completion value :=
  let scope := formatValidator_scope schema in
  match resolve scope "errors" with
  | Throw e => Throw e
  | Normal errors =>
      if negb (truthy errors) then Normal (Str "validation failed")
      else
        match prop errors "issues" with
        | Throw e => Throw e
        | Normal issues =>
            if negb (truthy issues) then Normal (Str "validation failed")
            else
              match prop issues "map" with
              | Throw e => Throw e
              | Normal m =>
                  if isArray m then
                    (* [errors.issues.map(...)]: an array is not callable *)
                    Throw (TypeError "errors.issues.map is not a function")
                  else Normal (Str (JSON_stringify C errors))
              end
        end
  end.

(* ------------------------------------------------------------------ *)
(** ** controllers/auth.controller.js *)

Definition signup (req : request) : M unit :=
  try_catch
    (match signUpSchema_safeParse C (req_body req) with
     | ParseFail err =>
         res_status 400 ;;
         details <- lift (formatValidator err) ;;
         res_json (Obj [ ("error", Str "validation failed"); ("details", details) ])
     | ParseOk data =>
         let name := get data "name" in
         let email := get data "email" in
         let password := get data "password" in
         let role := get data "role" in
         user <- createUser [ ("name", name); ("email", email);
                              ("password", password); ("role", role) ] ;;
         token <- lift (jwttoken_sign C [ ("id", get user "id");
                                          ("email", get user "email");
                                          ("role", get user "role") ]) ;;
         cookies_set "token" token [] ;;
         logger_info ("User signed up with name: " ++ to_string name
                      ++ ", email: " ++ to_string email
                      ++ ", role: " ++ to_string role) ;;
         res_status 201 ;;
         res_json (Obj [ ("message", Str "User signed up successfully");
                         ("user", Obj [ ("id", get user "id");
                                        ("name", get user "name");
                                        ("email", get user "email");
                                        ("role", get user "role") ]) ])
     end)
    (fun error =>
       logger_error_with "Signup error:" error ;;
       if (err_message error =? "user already exists")%string then
         res_status 409 ;;
         res_json (Obj [ ("error", Str "User already exists") ])
       else
         next (Some error)).

Definition signin (req : request) : M unit :=
  try_catch
    (match signInSchema_safeParse C (req_body req) with
     | ParseFail err =>
         res_status 400 ;;
         details <- lift (formatValidator err) ;;
         res_json (Obj [ ("error", Str "validation failed"); ("details", details) ])
     | ParseOk data =>
         let email := get data "email" in
         let password := get data "password" in
         user <- authenticateUser [ ("email", email); ("password", password) ] ;;
         token <- lift (jwttoken_sign C [ ("id", get user "id");
                                          ("email", get user "email");
                                          ("role", get user "role") ]) ;;
         cookies_set "token" token [] ;;
         logger_info ("User signed in with email: " ++ to_string email
                      ++ ", role: " ++ to_string (get user "role")) ;;
         res_status 200 ;;
         res_json (Obj [ ("message", Str "User signed in successfully");
                         ("user", Obj [ ("id", get user "id");
                                        ("name", get user "name");
                                        ("email", get user "email");
                                        ("role", get user "role") ]) ])
     end)
    (fun error =>
       logger_error_with "Signin error:" error ;;
       if (err_message error =? "invalid credentials")%string then
         res_status 401 ;;
         res_json (Obj [ ("error", Str "Invalid email or password") ])
       else
         next (Some error)).

Definition signout (req : request) : M unit :=
  try_catch
    (cookies_clear "token" [] ;;
     logger_info "User signed out" ;;
     res_status 200 ;;
     res_json (Obj [ ("message", Str "User signed out successfully") ]))
    (fun error =>
       logger_error_with "Signout error:" error ;;
       next (Some error)).

(* ------------------------------------------------------------------ *)
(** ** middleware/security.middleware.js *)

(** [req.user?.role || 'guest']. *)
Definition role_of (req : request) : value :=
  or_else (match req_user req with
           | Some user => get user "role"
           | None => Undefined
           end)
          (Str "guest").

(** The [switch (role)]: [limit] and [message] stay [undefined] when no case
    matches. *)
Definition tier (role : value) : value * value :=
  if is_string role "admin" then
    (Num 20, Str "Admin rate limit exceeded(20 per min). slow down.")
  else if is_string role "user" then
    (Num 10, Str "User rate limit exceeded(10 per min). slow down.")
  else if is_string role "guest" then
    (Num 5, Str "Guest rate limit exceeded(5 per min). slow down.")
  else
    (Undefined, Undefined).

(** The rule handed to [slidingWindow]. *)
Definition rule_for (req : request) : rule :=
  let role := role_of req in
  mkRule "LIVE" "1m" (fst (tier role)) (to_string role ++ "-rate-limit").

Definition securityMiddleware (req : request) : M unit :=
  try_catch
    (let role := role_of req in
     let message := snd (tier role) in
     decision <- lift (arcjet_protect C (rule_for req) req) ;;
     if isDenied decision && isBot (dec_reason decision) then
       logger_warn "Bot request blocked"
         [ ("ip", req_ip req); ("userAgent", req_get req "User-Agent");
           ("path", Str (req_path req)) ] ;;
       res_status 403 ;;
       res_json (Obj [ ("error", Str "Access denied for bots");
                       ("message", Str "Your request has been identified as coming from a bot and has been blocked.") ])
     else if isDenied decision && isShield (dec_reason decision) then
       logger_warn "Shield request blocked"
         [ ("ip", req_ip req); ("userAgent", req_get req "User-Agent");
           ("path", Str (req_path req)); ("method", Str (req_method req)) ] ;;
       res_status 403 ;;
       res_json (Obj [ ("error", Str "Access denied for bots");
                       ("message", Str "Request blocked by Shield.") ])
     else if isDenied decision && isRateLimit (dec_reason decision) then
       logger_warn "Rate limit request blocked"
         [ ("ip", req_ip req); ("userAgent", req_get req "User-Agent");
           ("path", Str (req_path req)); ("method", Str (req_method req)) ] ;;
       res_status 429 ;;
       res_json (Obj [ ("error", Str "Rate limit exceeded"); ("message", message) ])
     else
       next None)
    (fun error =>
       console_error "Security middleware error:" error ;;
       res_status 500 ;;
       res_json (Obj [ ("error", Str "Internal server error");
                       ("message", Str "An error occurred while processing your request.") ])).

End Handlers.

(* ------------------------------------------------------------------ *)
(** ** Running a handler; the client's cookie jar *)

(** The state a handler leaves. *)
Definition run (h : request -> M unit) (req : request) (s : state) : state :=
  snd (h req s).

(** A new request: the store and the log carry over, the response object and
    the record of [next] calls are new. *)
Definition arrive (s : state) : state :=
  mkState (st_db s) (st_log s) fresh_response [].

Definition serve (h : request -> M unit) (req : request) (s : state) : state :=
  run h req (arrive s).

(** The log entries a run added to a log that started as [before]. *)
Definition added (before after : list log_entry) : list log_entry :=
  skipn (length before) after.

(** What the client keeps of a response, by the contract of [res.cookie] and
    [res.clearCookie]: the first stores the cookie under its name, the
    second removes the cookie of that name. *)
Definition apply_cookie_op (jar : object) (op : cookie_op) : object :=
  match op with
  | SetCookie name val _ => set jar name val
  | ClearCookie name _ => omit name jar
  end.

Definition client_after (jar : object) (res : response) : object :=
  fold_left apply_cookie_op (cookie_ops res) jar.

(* ------------------------------------------------------------------ *)
(** ** The rate tiers as the specification tabulates them *)

(** Role, requests per minute, message of the 429 response. *)
Definition tier_table : list (string * Z * string) :=
  [ ("guest", 5, "Guest rate limit exceeded(5 per min). slow down.");
    ("user", 10, "User rate limit exceeded(10 per min). slow down.");
    ("admin", 20, "Admin rate limit exceeded(20 per min). slow down.") ].

(* ------------------------------------------------------------------ *)
(** ** A concrete deployment, to evaluate the handlers on *)

Definition sample_hash (password : value) : value :=
  Str ("$2b$10$" ++ to_string password).

Definition zod_error (msg : string) : value :=
  Obj [ ("name", Str "ZodError");
        ("issues", Arr [ Obj [ ("path", Arr [Str "password"]); ("message", Str msg) ] ]) ].

Definition sample_signUpSchema (body : value) : safe_parse :=
  match body with
  | Obj o =>
      match get o "name", get o "email", get o "password" with
      | Str n, Str e, Str p =>
          if (6 <=? String.length p)%nat then
            ParseOk [ ("name", Str n); ("email", Str (lower e)); ("password", Str p);
                      ("role", default_to (get o "role") (Str "user")) ]
          else ParseFail (zod_error "Password must be at least 6 characters")
      | _, _, _ => ParseFail (zod_error "Required")
      end
  | _ => ParseFail (zod_error "Required")
  end.

Definition sample_signInSchema (body : value) : safe_parse :=
  match body with
  | Obj o =>
      match get o "email", get o "password" with
      | Str e, Str p =>
          if (1 <=? String.length p)%nat then
            ParseOk [ ("email", Str (lower e)); ("password", Str p) ]
          else ParseFail (zod_error "Password is required")
      | _, _ => ParseFail (zod_error "Required")
      end
  | _ => ParseFail (zod_error "Required")
  end.

(** A deployment in mode [mode] whose decision service answers [d]. *)
Definition sample (mode : option string) (d : completion decision) : collaborators :=
  {| NODE_ENV := mode;
     bcrypt_hash := fun password _ => Normal (sample_hash password);
     bcrypt_compare := fun password hashed =>
       Normal (is_string hashed (to_string (sample_hash password)));
     JSON_stringify := fun _ => "{}";
     arcjet_protect := fun _ _ => d;
     signUpSchema_safeParse := sample_signUpSchema;
     signInSchema_safeParse := sample_signInSchema;
     jwttoken_sign := fun claims => Normal (Str ("jwt:" ++ to_string (get claims "id"))) |}.

Definition production : collaborators :=
  sample (Some "production") (Normal (mkDecision ALLOW RATE_LIMIT)).

(** One registered user, [al@b.com] with password [secret1]. *)
Definition al : object :=
  [ ("id", Num 1); ("name", Str "Al"); ("email", Str "al@b.com");
    ("password", sample_hash (Str "secret1")); ("role", Str "admin");
    ("createdAt", Num 1000); ("updatedAt", Num 1000) ].

Definition one_user : state :=
  mkState (mkStore [al] 2 2000) [] fresh_response [].

Definition post (path : string) (body : value) : request :=
  mkRequest body None (Str "203.0.113.7") [ ("user-agent", "curl/8.5.0") ] path "POST" [].

Definition as_role (role : string) (req : request) : request :=
  mkRequest (req_body req) (Some [ ("id", Num 1); ("role", Str role) ]) (req_ip req)
            (req_headers req) (req_path req) (req_method req) (req_cookies req).

Definition credentials (email password : string) : value :=
  Obj [ ("email", Str email); ("password", Str password) ].

Definition registration (name email password : string) : value :=
  Obj [ ("name", Str name); ("email", Str email); ("password", Str password) ].

(** Deployments whose decision service denies for [r], or is out of reach. *)
Definition denying (r : reason) : collaborators :=
  sample None (Normal (mkDecision DENY r)).

Definition unreachable : collaborators :=
  sample None (Throw (Error "fetch failed")).

Definition signin_al : request :=
  post "/api/auth/sign-in" (credentials "al@b.com" "secret1").

Definition admin_request : request := as_role "admin" signin_al.

(** A sign-up whose password is too short, and a sign-in without one. *)
Definition short_password_signup : request :=
  post "/api/auth/sign-up" (registration "Al" "al@b.com" "abc").

Definition empty_signin : request :=
  post "/api/auth/sign-in" (Obj [ ("email", Str "al@b.com") ]).

Definition signup_bo : request :=
  post "/api/auth/sign-up" (registration "Bo" "Bo@B.com" "secret2").

Definition signup_al_again : request :=
  post "/api/auth/sign-up" (registration "Al" "AL@b.com" "secret1").

Definition signin_nobody : request :=
  post "/api/auth/sign-in" (credentials "zed@b.com" "secret1").

Definition signin_al_wrong : request :=
  post "/api/auth/sign-in" (credentials "al@b.com" "secret9").

(** The property names a log entry carries as request context. *)
Definition logged_fields (e : log_entry) : list string :=
  match log_more e with
  | Meta fields => keys fields
  | NoExtra | Caught _ => []
  end.

(** The record a sign-up with parsed [data] puts into [db], once bcrypt has
    returned [hashed]. *)
Definition stored (db : store) (data : object) (hashed : value) : object :=
  [ ("id", Num (next_id db)); ("name", get data "name"); ("email", get data "email");
    ("password", hashed); ("role", default_to (get data "role") (Str "user"));
    ("createdAt", Num (clock db)); ("updatedAt", Num (clock db)) ].

(** Deployments whose token signer, or whose bcrypt, throws. *)
Definition broken_signer : collaborators :=
  {| NODE_ENV := NODE_ENV production;
     bcrypt_hash := bcrypt_hash production;
     bcrypt_compare := bcrypt_compare production;
     JSON_stringify := JSON_stringify production;
     arcjet_protect := arcjet_protect production;
     signUpSchema_safeParse := signUpSchema_safeParse production;
     signInSchema_safeParse := signInSchema_safeParse production;
     jwttoken_sign := fun _ => Throw (Error "secretOrPrivateKey must have a value") |}.

Definition broken_bcrypt : collaborators :=
  {| NODE_ENV := NODE_ENV production;
     bcrypt_hash := fun _ _ => Throw (Error "data and salt arguments required");
     bcrypt_compare := fun _ _ => Throw (Error "data and hash arguments required");
     JSON_stringify := JSON_stringify production;
     arcjet_protect := arcjet_protect production;
     signUpSchema_safeParse := signUpSchema_safeParse production;
     signInSchema_safeParse := signInSchema_safeParse production;
     jwttoken_sign := jwttoken_sign production |}.

Definition signin_bo : request :=
  post "/api/auth/sign-in" (credentials "bo@b.com" "secret2").

Definition moderator_request : request := as_role "moderator" signin_al.

(** The request a client sends next: the same, with its cookie jar. *)
Definition with_cookies (req : request) (jar : object) : request :=
  mkRequest (req_body req) (req_user req) (req_ip req) (req_headers req)
            (req_path req) (req_method req) jar.

(* ================================================================== *)
(** * Properties *)

(** ** Objects *)

Lemma get_set_same (o : object) (k : string) (v : value) :
  get (set o k v) k = v.
Proof.
  induction o as [|[k' v'] o IH]; simpl.
  - now rewrite String.eqb_refl.
  - destruct (k' =? k)%string eqn:E; simpl; rewrite E; auto.
Qed.

Lemma get_set_other (o : object) (k k' : string) (v : value) :
  k <> k' -> get (set o k v) k' = get o k'.
Proof.
  intros Hne. induction o as [|[k0 v0] o IH]; simpl.
  - apply String.eqb_neq in Hne. now rewrite Hne.
  - destruct (k0 =? k)%string eqn:E; simpl.
    + apply String.eqb_eq in E. subst k0.
      apply String.eqb_neq in Hne. now rewrite Hne.
    + now rewrite IH.
Qed.

Lemma has_false_get (o : object) (k : string) :
  has o k = false -> get o k = Undefined.
Proof.
  induction o as [|[k' v'] o IH]; simpl; auto.
  intros H. apply orb_false_iff in H as [E H]. rewrite E. auto.
Qed.

Lemma has_false_not_in (o : object) (k : string) :
  has o k = false -> ~ In k (keys o).
Proof.
  induction o as [|[k' v'] o IH]; simpl; auto.
  intros H [Heq | Hin]; apply orb_false_iff in H as [E H].
  - subst. now rewrite String.eqb_refl in E.
  - now apply IH.
Qed.

Lemma not_in_has_false (o : object) (k : string) :
  ~ In k (keys o) -> has o k = false.
Proof.
  induction o as [|[k' v'] o IH]; simpl; auto.
  intros H. apply orb_false_iff. split.
  - apply String.eqb_neq. intros ->. apply H. now left.
  - apply IH. intros Hin. apply H. now right.
Qed.

(** A property that [b] does not have is read from [a]. *)
Lemma get_spread_default (a b : object) (k : string) :
  has b k = false -> get (spread a b) k = get a k.
Proof.
  unfold spread. revert a.
  induction b as [|[k' v'] b IH]; simpl; intros a H; auto.
  apply orb_false_iff in H as [E H].
  rewrite IH by assumption.
  apply get_set_other. now apply String.eqb_neq.
Qed.

(** A property of [b] is read from [b], whatever [a] holds. *)
Lemma get_spread_override (a b : object) (k : string) :
  NoDup (keys b) -> has b k = true -> get (spread a b) k = get b k.
Proof.
  unfold spread. revert a.
  induction b as [|[k' v'] b IH]; simpl; intros a Hnd H; [discriminate|].
  inversion Hnd as [|? ? Hnotin Hnd']; subst.
  destruct (k' =? k)%string eqn:E.
  - apply String.eqb_eq in E. subst k'.
    change (fold_left (fun acc kv => set acc (fst kv) (snd kv)) b (set a k v'))
      with (spread (set a k v') b).
    rewrite get_spread_default by now apply not_in_has_false.
    apply get_set_same.
  - simpl in H. now apply IH.
Qed.

Lemma has_omit (o : object) (k : string) : has (omit k o) k = false.
Proof.
  induction o as [|[k' v'] o IH]; simpl; auto.
  destruct (k' =? k)%string eqn:E; simpl; auto.
  rewrite E. auto.
Qed.

Lemma get_omit_other (o : object) (k k' : string) :
  k <> k' -> get (omit k o) k' = get o k'.
Proof.
  intros Hne. induction o as [|[k0 v0] o IH]; simpl; auto.
  destruct (k0 =? k)%string eqn:E; simpl.
  - apply String.eqb_eq in E. subst k0.
    apply String.eqb_neq in Hne. now rewrite Hne.
  - now rewrite IH.
Qed.

Lemma spread_nil (a : object) : spread a [] = a.
Proof. reflexivity. Qed.

(** ** The session cookie manager *)

Section CookieManager.

Variable C : collaborators.

Lemma cookies_set_ops (name : string) (val : value) (options : object) (s : state) :
  cookie_ops (st_res (snd (cookies_set C name val options s))) =
  cookie_ops (st_res s) ++ [SetCookie name val (spread (cookies_getOptions C) options)].
Proof. reflexivity. Qed.

Lemma cookies_clear_ops (name : string) (options : object) (s : state) :
  cookie_ops (st_res (snd (cookies_clear C name options s))) =
  cookie_ops (st_res s) ++ [ClearCookie name (spread (cookies_getOptions C) options)].
Proof. reflexivity. Qed.

Lemma secure_iff_production :
  exists b, get (cookies_getOptions C) "secure" = Bool b /\
            (b = true <-> NODE_ENV C = Some "production").
Proof.
  unfold cookies_getOptions. simpl.
  destruct (NODE_ENV C) as [mode|].
  - exists (mode =? "production")%string. split; [reflexivity|].
    rewrite String.eqb_eq. split; [intros -> | intros [= ->]]; reflexivity.
  - exists false. split; [reflexivity|]. split; discriminate.
Qed.

(** C8: [cookies.set] and [cookies.clear] hand Express the same attribute
    object. Without per-call options it is the fixed one of [getOptions]:
    [httpOnly] true, [secure] true exactly in production mode, [sameSite]
    Lax, [maxAge] 15 minutes in milliseconds. With options, set and clear
    still use one and the same object, in which every option given by the
    call replaces the default and every other attribute keeps it. *)
Theorem cookie_attributes_shared :
  (keys (cookies_getOptions C) = ["httpOnly"; "secure"; "sameSite"; "maxAge"]
   /\ get (cookies_getOptions C) "httpOnly" = Bool true
   /\ (exists b, get (cookies_getOptions C) "secure" = Bool b /\
                 (b = true <-> NODE_ENV C = Some "production"))
   /\ get (cookies_getOptions C) "sameSite" = Str "Lax"
   /\ get (cookies_getOptions C) "maxAge" = Num (15 * 60 * 1000))
  /\ (forall name val s,
        cookie_ops (st_res (snd (cookies_set C name val [] s))) =
        cookie_ops (st_res s) ++ [SetCookie name val (cookies_getOptions C)])
  /\ (forall name s,
        cookie_ops (st_res (snd (cookies_clear C name [] s))) =
        cookie_ops (st_res s) ++ [ClearCookie name (cookies_getOptions C)])
  /\ (forall options name val s,
        exists attrs,
          cookie_ops (st_res (snd (cookies_set C name val options s))) =
            cookie_ops (st_res s) ++ [SetCookie name val attrs]
          /\ cookie_ops (st_res (snd (cookies_clear C name options s))) =
            cookie_ops (st_res s) ++ [ClearCookie name attrs]
          /\ (forall k, has options k = false ->
                        get attrs k = get (cookies_getOptions C) k)
          /\ (NoDup (keys options) ->
              forall k, has options k = true -> get attrs k = get options k)).
Proof.
  split; [|split; [|split]].
  - repeat split; try reflexivity. apply secure_iff_production.
  - intros. apply cookies_set_ops.
  - intros. apply cookies_clear_ops.
  - intros options name val s.
    exists (spread (cookies_getOptions C) options).
    split; [apply cookies_set_ops|].
    split; [apply cookies_clear_ops|].
    split.
    + intros k Hk. now apply get_spread_default.
    + intros Hnd k Hk. now apply get_spread_override.
Qed.

End CookieManager.

(** A call that overrides [maxAge] and adds [path] in production mode. *)
Lemma cookie_attributes_shared_witness :
  exists attrs,
    cookie_ops (st_res (snd (cookies_set production "token" (Str "t")
                               [("maxAge", Num 0); ("path", Str "/")] one_user))) =
      [SetCookie "token" (Str "t") attrs]
    /\ cookie_ops (st_res (snd (cookies_clear production "token"
                                  [("maxAge", Num 0); ("path", Str "/")] one_user))) =
      [ClearCookie "token" attrs]
    /\ get attrs "maxAge" = Num 0
    /\ get attrs "path" = Str "/"
    /\ get attrs "httpOnly" = Bool true
    /\ get attrs "secure" = Bool true.
Proof.
  destruct (cookie_attributes_shared production)
    as (_ & _ & _ & Hany).
  destruct (Hany [("maxAge", Num 0); ("path", Str "/")] "token" (Str "t") one_user)
    as (attrs & Hset & Hclear & Hdefault & Hoverride).
  exists attrs.
  assert (Hnd : NoDup (keys [("maxAge", Num 0); ("path", Str "/")])).
  { simpl. repeat constructor; simpl; intuition discriminate. }
  repeat split.
  - exact Hset.
  - exact Hclear.
  - rewrite (Hoverride Hnd "maxAge") by reflexivity. reflexivity.
  - rewrite (Hoverride Hnd "path") by reflexivity. reflexivity.
  - rewrite (Hdefault "httpOnly") by reflexivity. reflexivity.
  - rewrite (Hdefault "secure") by reflexivity. reflexivity.
Defined.

(** ** Sign-out *)

Lemma has_client_after_clear (jar : object) (res : response) (name : string) (attrs : object) :
  cookie_ops res = [ClearCookie name attrs] ->
  has (client_after jar res) name = false.
Proof.
  intros H. unfold client_after. rewrite H. simpl. apply has_omit.
Qed.

Lemma signout_run (C : collaborators) (req : request) (s : state) :
  signout C req s =
  (Normal tt,
   mkState (st_db s)
           (st_log s ++ [mkLog LoggerInfo "User signed out" NoExtra])
           (mkResponse 200
              (Some (Obj [ ("message", Str "User signed out successfully") ]))
              (cookie_ops (st_res s) ++ [ClearCookie "token" (cookies_getOptions C)]))
           (st_next s)).
Proof. reflexivity. Qed.

(** C9: sign-out never reads the request: whatever cookies the request or the
    client holds, it clears the cookie [token], answers 200 and does not call
    [next]. Two sign-outs in a row both answer 200, and after each of them
    the client holds no cookie [token]. *)
Theorem signout_idempotent (C : collaborators) (req1 req2 : request)
    (s : state) (jar : object) :
  let s1 := serve (signout C) req1 s in
  let s2 := serve (signout C) req2 s1 in
  let jar1 := client_after jar (st_res s1) in
  let jar2 := client_after jar1 (st_res s2) in
  statusCode (st_res s1) = 200
  /\ statusCode (st_res s2) = 200
  /\ sent (st_res s1) = Some (Obj [ ("message", Str "User signed out successfully") ])
  /\ sent (st_res s2) = sent (st_res s1)
  /\ cookie_ops (st_res s1) = [ClearCookie "token" (cookies_getOptions C)]
  /\ cookie_ops (st_res s2) = cookie_ops (st_res s1)
  /\ st_next s1 = [] /\ st_next s2 = []
  /\ st_db s2 = st_db s
  /\ has jar1 "token" = false
  /\ has jar2 "token" = false.
Proof.
  intros s1 s2 jar1 jar2.
  subst s1 s2 jar1 jar2. unfold serve, run.
  rewrite !signout_run. simpl.
  repeat split; try reflexivity.
  - unfold client_after. simpl. apply has_omit.
  - unfold client_after. simpl. apply has_omit.
Qed.

(** ** The admission control gate *)

Section Gate.

Variable C : collaborators.

(** The gate's steps, once the decision service has answered. *)
Ltac gate_steps H :=
  unfold run, securityMiddleware, try_catch, bind, lift;
  rewrite H; simpl.

Lemma role_of_absent (req : request) :
  req_user req = None -> role_of req = Str "guest".
Proof. unfold role_of. now intros ->. Qed.

Lemma role_of_attached (req : request) (user : object) (r : string) :
  req_user req = Some user -> get user "role" = Str r -> r <> "" ->
  role_of req = Str r.
Proof.
  unfold role_of, or_else. intros -> -> Hne. simpl.
  apply String.eqb_neq in Hne. now rewrite Hne.
Qed.

Lemma tier_of_table (role : string) (limit : Z) (message : string) :
  In (role, limit, message) tier_table ->
  tier (Str role) = (Num limit, Str message).
Proof.
  simpl. intros [H | [H | [H | []]]]; inversion H; reflexivity.
Qed.

Lemma rate_limit_denied (req : request) (s : state) (d : decision) :
  arcjet_protect C (rule_for req) req = Normal d ->
  isDenied d = true -> isRateLimit (dec_reason d) = true ->
  run (securityMiddleware C) req s =
  mkState (st_db s)
    (st_log s ++
       [mkLog LoggerWarn "Rate limit request blocked"
          (Meta [ ("ip", req_ip req); ("userAgent", req_get req "User-Agent");
                  ("path", Str (req_path req)); ("method", Str (req_method req)) ])])
    (mkResponse 429
       (Some (Obj [ ("error", Str "Rate limit exceeded");
                    ("message", snd (tier (role_of req))) ]))
       (cookie_ops (st_res s)))
    (st_next s).
Proof.
  intros Hd Hdenied Hrate. gate_steps Hd.
  rewrite Hdenied. destruct (dec_reason d); try discriminate. reflexivity.
Qed.

(** C5: the gate takes the role attached to the request, [guest] when none
    is attached. For each of the three tiers (guest 5, user 10, admin 20) the
    rule it hands the decision service is a live sliding window of one
    minute with that maximum, named [{role}-rate-limit]; and a denial whose
    reason is the rate limit is answered 429 with the tier's message, logged,
    and not forwarded. *)
Theorem gate_rate_tiers (req : request) (s : state) :
  (req_user req = None -> role_of req = Str "guest")
  /\ (forall user r,
        req_user req = Some user -> get user "role" = Str r -> r <> "" ->
        role_of req = Str r)
  /\ (forall role limit message,
        In (role, limit, message) tier_table ->
        role_of req = Str role ->
        rule_for req = mkRule "LIVE" "1m" (Num limit) (role ++ "-rate-limit")
        /\ forall d,
             arcjet_protect C (rule_for req) req = Normal d ->
             isDenied d = true -> isRateLimit (dec_reason d) = true ->
             let s' := run (securityMiddleware C) req s in
             st_res s' =
               mkResponse 429
                 (Some (Obj [ ("error", Str "Rate limit exceeded");
                              ("message", Str message) ]))
                 (cookie_ops (st_res s))
             /\ st_next s' = st_next s
             /\ added (st_log s) (st_log s') =
                  [mkLog LoggerWarn "Rate limit request blocked"
                     (Meta [ ("ip", req_ip req);
                             ("userAgent", req_get req "User-Agent");
                             ("path", Str (req_path req));
                             ("method", Str (req_method req)) ])]).
Proof.
  split; [apply role_of_absent|].
  split; [apply role_of_attached|].
  intros role limit message Hin Hrole.
  pose proof (tier_of_table _ _ _ Hin) as Htier.
  split.
  - unfold rule_for. rewrite Hrole, Htier. reflexivity.
  - intros d Hd Hdenied Hrate s'. subst s'.
    rewrite (rate_limit_denied req s d Hd Hdenied Hrate).
    rewrite Hrole, Htier. simpl.
    repeat split.
    unfold added. rewrite skipn_app, skipn_all, Nat.sub_diag. reflexivity.
Qed.

(** C6, as the code has it: a denial whose reason is the shield is answered
    403 with the message [Request blocked by Shield.], is not forwarded, and
    is logged with ip, user agent, path and also the method: one field more
    than a bot denial logs. *)
Theorem shield_denied (req : request) (s : state) (d : decision) :
  arcjet_protect C (rule_for req) req = Normal d ->
  isDenied d = true -> isShield (dec_reason d) = true ->
  let s' := run (securityMiddleware C) req s in
  st_res s' =
    mkResponse 403
      (Some (Obj [ ("error", Str "Access denied for bots");
                   ("message", Str "Request blocked by Shield.") ]))
      (cookie_ops (st_res s))
  /\ st_next s' = st_next s
  /\ added (st_log s) (st_log s') =
       [mkLog LoggerWarn "Shield request blocked"
          (Meta [ ("ip", req_ip req);
                  ("userAgent", req_get req "User-Agent");
                  ("path", Str (req_path req));
                  ("method", Str (req_method req)) ])].
Proof.
  intros Hd Hdenied Hshield s'. subst s'. gate_steps Hd.
  rewrite Hdenied. destruct (dec_reason d); try discriminate. simpl.
  repeat split.
  unfold added. rewrite skipn_app, skipn_all, Nat.sub_diag. reflexivity.
Qed.

(** C7: when the decision service throws inside the gate, the gate answers
    500, writes the fault to the console, and [next] is not called. *)
Theorem gate_fails_closed (req : request) (s : state) (fault : error) :
  arcjet_protect C (rule_for req) req = Throw fault ->
  let s' := run (securityMiddleware C) req s in
  st_res s' =
    mkResponse 500
      (Some (Obj [ ("error", Str "Internal server error");
                   ("message", Str "An error occurred while processing your request.") ]))
      (cookie_ops (st_res s))
  /\ added (st_log s) (st_log s') =
       [mkLog ConsoleError "Security middleware error:" (Caught fault)]
  /\ st_next s' = st_next s.
Proof.
  intros Hd s'. subst s'. gate_steps Hd.
  repeat split.
  unfold added. rewrite skipn_app, skipn_all, Nat.sub_diag. reflexivity.
Qed.

(** C10: a denial whose reason is none of bot, shield and rate limit is not
    rejected: the gate calls [next()] once, and leaves the response, the log
    and the store as they were. *)
Theorem unclassified_denial_forwarded (req : request) (s : state) (d : decision) :
  arcjet_protect C (rule_for req) req = Normal d ->
  isDenied d = true ->
  isBot (dec_reason d) = false ->
  isShield (dec_reason d) = false ->
  isRateLimit (dec_reason d) = false ->
  let s' := run (securityMiddleware C) req s in
  st_next s' = st_next s ++ [None]
  /\ st_res s' = st_res s
  /\ st_log s' = st_log s
  /\ st_db s' = st_db s.
Proof.
  intros Hd Hdenied Hbot Hshield Hrate s'. subst s'. gate_steps Hd.
  rewrite Hdenied, Hbot, Hshield, Hrate. simpl. repeat split.
Qed.

End Gate.

(** An admin over the limit: the rule is the admin tier's, the answer 429. *)
Lemma gate_rate_tiers_witness :
  role_of admin_request = Str "admin"
  /\ rule_for admin_request = mkRule "LIVE" "1m" (Num 20) "admin-rate-limit"
  /\ st_res (run (securityMiddleware (denying RATE_LIMIT)) admin_request one_user) =
       mkResponse 429
         (Some (Obj [ ("error", Str "Rate limit exceeded");
                      ("message", Str "Admin rate limit exceeded(20 per min). slow down.") ]))
         [].
Proof.
  destruct (gate_rate_tiers (denying RATE_LIMIT) admin_request one_user)
    as (_ & Hattached & Htiers).
  assert (Hrole : role_of admin_request = Str "admin").
  { apply (Hattached [ ("id", Num 1); ("role", Str "admin") ] "admin");
      [reflexivity | reflexivity | discriminate]. }
  destruct (Htiers "admin" 20 "Admin rate limit exceeded(20 per min). slow down.")
    as [Hrule Hdeny].
  - simpl. right. right. left. reflexivity.
  - exact Hrole.
  - split; [exact Hrole|]. split; [exact Hrule|].
    destruct (Hdeny (mkDecision DENY RATE_LIMIT)) as (Hres & _);
      [reflexivity | reflexivity | reflexivity |].
    exact Hres.
Defined.

Lemma shield_denied_witness :
  st_res (run (securityMiddleware (denying SHIELD)) signin_al one_user) =
    mkResponse 403
      (Some (Obj [ ("error", Str "Access denied for bots");
                   ("message", Str "Request blocked by Shield.") ]))
      []
  /\ map logged_fields
       (st_log (run (securityMiddleware (denying SHIELD)) signin_al one_user)) =
     [ ["ip"; "userAgent"; "path"; "method"] ].
Proof.
  destruct (shield_denied (denying SHIELD) signin_al one_user (mkDecision DENY SHIELD))
    as (Hres & _ & Hlog); [reflexivity | reflexivity | reflexivity |].
  split; [exact Hres|].
  change (added (st_log one_user) ?l) with l in Hlog.
  rewrite Hlog. reflexivity.
Defined.

(** C6 as stated fails: on one and the same request, the context logged for
    a shield denial is not the context logged for a bot denial; the shield
    entry also carries the method. *)
Lemma shield_context_is_not_bot_context :
  map logged_fields
    (st_log (run (securityMiddleware (denying SHIELD)) signin_al one_user)) =
    [ ["ip"; "userAgent"; "path"; "method"] ]
  /\ map logged_fields
       (st_log (run (securityMiddleware (denying BOT)) signin_al one_user)) =
     [ ["ip"; "userAgent"; "path"] ]
  /\ map log_more
       (st_log (run (securityMiddleware (denying SHIELD)) signin_al one_user)) <>
     map log_more
       (st_log (run (securityMiddleware (denying BOT)) signin_al one_user)).
Proof.
  split; [reflexivity|]. split; [reflexivity|].
  vm_compute. discriminate.
Qed.

Lemma gate_fails_closed_witness :
  st_res (run (securityMiddleware unreachable) signin_al one_user) =
    mkResponse 500
      (Some (Obj [ ("error", Str "Internal server error");
                   ("message", Str "An error occurred while processing your request.") ]))
      []
  /\ st_next (run (securityMiddleware unreachable) signin_al one_user) = [].
Proof.
  destruct (gate_fails_closed unreachable signin_al one_user (Error "fetch failed"))
    as (Hres & _ & Hnext); [reflexivity|].
  split; [exact Hres | exact Hnext].
Defined.

(** A denial for an invalid e-mail address is let through. *)
Lemma unclassified_denial_forwarded_witness :
  st_next (run (securityMiddleware (denying EMAIL)) signin_al one_user) = [None]
  /\ st_res (run (securityMiddleware (denying EMAIL)) signin_al one_user) = fresh_response.
Proof.
  destruct (unclassified_denial_forwarded (denying EMAIL) signin_al one_user
              (mkDecision DENY EMAIL))
    as (Hnext & Hres & _);
    [reflexivity | reflexivity | reflexivity | reflexivity | reflexivity |].
  split; [exact Hnext | exact Hres].
Defined.

(** ** The credential store and the auth service *)

Lemma select_is_find (p : object -> bool) (l : list object) :
  firstn 1 (filter p l) = match find p l with Some row => [row] | None => [] end.
Proof.
  induction l as [|row l IH]; simpl; auto.
  destruct (p row); simpl; auto.
Qed.

Lemma find_none_existsb (p : object -> bool) (l : list object) :
  find p l = None -> existsb p l = false.
Proof.
  induction l as [|row l IH]; simpl; auto.
  destruct (p row); [discriminate | auto].
Qed.

Lemma in_matching_find (p : object -> bool) (l : list object) (row : object) :
  In row l -> p row = true -> exists first, find p l = Some first.
Proof.
  intros Hin Hp. destruct (find p l) as [first|] eqn:E; [now exists first|].
  rewrite (find_none _ _ E row Hin) in Hp. discriminate.
Qed.

Lemma default_to_idem (v d : value) :
  d <> Undefined -> default_to (default_to v d) d = default_to v d.
Proof. destruct v, d; simpl; congruence. Qed.

Section Service.

Variable C : collaborators.

Ltac service_steps :=
  unfold run, try_catch, bind, lift, throw, ret, db_select_by_email,
    logger_info, logger_error, logger_error_with, write_log; cbv beta.

(** The duplicate: the sentinel is thrown before anything is hashed or
    inserted. *)
Lemma createUser_duplicate (args : object) (s : state) (row : object) :
  find (email_matches (get args "email")) (rows (st_db s)) = Some row ->
  createUser C args s =
  (Throw (Error "user already exists"),
   mkState (st_db s)
     (st_log s ++ [mkLog LoggerError "Create user error: Error: user already exists" NoExtra])
     (st_res s) (st_next s)).
Proof.
  intros Hfind. unfold createUser. service_steps.
  rewrite select_is_find, Hfind. reflexivity.
Qed.

(** The new user: hashed, inserted under the next id, returned without the
    hash. *)
Lemma createUser_new (args : object) (s : state) (hashed : value) :
  find (email_matches (get args "email")) (rows (st_db s)) = None ->
  bcrypt_hash C (get args "password") 10 = Normal hashed ->
  let role := default_to (get args "role") (Str "user") in
  let id := Num (next_id (st_db s)) in
  createUser C args s =
  (Normal [ ("id", id); ("name", get args "name"); ("email", get args "email");
            ("role", role); ("created_at", Num (clock (st_db s))) ],
   mkState
     (mkStore (rows (st_db s) ++
                 [ [ ("id", id); ("name", get args "name"); ("email", get args "email");
                     ("password", hashed); ("role", role);
                     ("createdAt", Num (clock (st_db s)));
                     ("updatedAt", Num (clock (st_db s))) ] ])
              (next_id (st_db s) + 1) (clock (st_db s)))
     (st_log s ++
        [mkLog LoggerInfo
           ("New user created with id: " ++ show_Z (next_id (st_db s))
            ++ ", email: " ++ to_string (get args "email")) NoExtra])
     (st_res s) (st_next s)).
Proof.
  intros Hfind Hhash role id. subst role id.
  unfold createUser, hashPassword, db_insert_returning. service_steps.
  rewrite select_is_find, Hfind. simpl.
  rewrite Hhash. simpl.
  rewrite (find_none_existsb _ _ Hfind). unfold new_row. simpl.
  rewrite default_to_idem by discriminate.
  reflexivity.
Qed.

(** A fault of the hasher is wrapped, logged twice and thrown on; nothing
    is inserted. *)
Lemma createUser_hashing_fault (args : object) (s : state) (fault : error) :
  find (email_matches (get args "email")) (rows (st_db s)) = None ->
  bcrypt_hash C (get args "password") 10 = Throw fault ->
  createUser C args s =
  (Throw (Error "Password hashing failed"),
   mkState (st_db s)
     (st_log s ++
        [mkLog LoggerError ("Password hashing error: " ++ error_to_string fault) NoExtra;
         mkLog LoggerError "Create user error: Error: Password hashing failed" NoExtra])
     (st_res s) (st_next s)).
Proof.
  intros Hfind Hhash. unfold createUser, hashPassword. service_steps.
  rewrite select_is_find, Hfind. simpl. rewrite Hhash. simpl.
  rewrite <- app_assoc. reflexivity.
Qed.

Lemma authenticateUser_absent (args : object) (s : state) :
  find (email_matches (get args "email")) (rows (st_db s)) = None ->
  authenticateUser C args s =
  (Throw (Error "invalid credentials"),
   mkState (st_db s)
     (st_log s ++
        [mkLog LoggerInfo
           ("Authentication failed: user not found for email "
            ++ to_string (get args "email")) NoExtra])
     (st_res s) (st_next s)).
Proof.
  intros Hfind. unfold authenticateUser. service_steps.
  rewrite select_is_find, Hfind. reflexivity.
Qed.

Lemma authenticateUser_mismatch (args : object) (s : state) (user : object) :
  find (email_matches (get args "email")) (rows (st_db s)) = Some user ->
  bcrypt_compare C (get args "password") (get user "password") = Normal false ->
  authenticateUser C args s =
  (Throw (Error "invalid credentials"),
   mkState (st_db s)
     (st_log s ++
        [mkLog LoggerInfo
           ("Authentication failed: invalid password for email "
            ++ to_string (get args "email")) NoExtra])
     (st_res s) (st_next s)).
Proof.
  intros Hfind Hcmp. unfold authenticateUser, comparePassword. service_steps.
  rewrite select_is_find, Hfind. simpl. rewrite Hcmp. reflexivity.
Qed.

Lemma authenticateUser_match (args : object) (s : state) (user : object) :
  find (email_matches (get args "email")) (rows (st_db s)) = Some user ->
  bcrypt_compare C (get args "password") (get user "password") = Normal true ->
  authenticateUser C args s =
  (Normal (omit "password" user),
   mkState (st_db s)
     (st_log s ++
        [mkLog LoggerInfo
           ("User authenticated with id: " ++ to_string (get (omit "password" user) "id")
            ++ ", email: " ++ to_string (get (omit "password" user) "email")) NoExtra])
     (st_res s) (st_next s)).
Proof.
  intros Hfind Hcmp. unfold authenticateUser, comparePassword. service_steps.
  rewrite select_is_find, Hfind. simpl. rewrite Hcmp. reflexivity.
Qed.

End Service.

(** ** The auth flow controller *)

Lemma formatValidator_throws (C : collaborators) (schema : value) :
  formatValidator C schema = Throw (ReferenceError "errors is not defined").
Proof. reflexivity. Qed.

Section Controller.

Variable C : collaborators.

Ltac controller_steps H :=
  unfold run, signup, signin, try_catch, bind;
  rewrite H; cbv beta zeta.

Lemma added_app (before new : list log_entry) : added before (before ++ new) = new.
Proof.
  unfold added. rewrite skipn_app, skipn_all, Nat.sub_diag. reflexivity.
Qed.

(** What sign-up leaves when the e-mail is taken. *)
Lemma signup_duplicate_run (req : request) (s : state) (data row : object) :
  signUpSchema_safeParse C (req_body req) = ParseOk data ->
  find (email_matches (get data "email")) (rows (st_db s)) = Some row ->
  run (signup C) req s =
  mkState (st_db s)
    (st_log s ++
       [mkLog LoggerError "Create user error: Error: user already exists" NoExtra;
        mkLog LoggerError "Signup error:" (Caught (Error "user already exists"))])
    (mkResponse 409 (Some (Obj [ ("error", Str "User already exists") ]))
       (cookie_ops (st_res s)))
    (st_next s).
Proof.
  intros Hparse Hfind. controller_steps Hparse.
  rewrite (createUser_duplicate C _ s row) by exact Hfind.
  simpl. rewrite <- app_assoc. reflexivity.
Qed.

(** An infrastructure failure takes the other exit: a hashing fault is
    handed to [next], and nothing is sent. *)
Lemma signup_hashing_fault_run (req : request) (s : state) (data : object) (fault : error) :
  signUpSchema_safeParse C (req_body req) = ParseOk data ->
  find (email_matches (get data "email")) (rows (st_db s)) = None ->
  bcrypt_hash C (get data "password") 10 = Throw fault ->
  st_res (run (signup C) req s) = st_res s
  /\ st_next (run (signup C) req s) = st_next s ++ [Some (Error "Password hashing failed")]
  /\ st_db (run (signup C) req s) = st_db s.
Proof.
  intros Hparse Hfind Hhash. controller_steps Hparse.
  rewrite (createUser_hashing_fault C _ s fault) by assumption.
  simpl. repeat split.
Qed.

(** C1: a sign-up that passes validation with an e-mail some stored record
    already has is answered 409 [User already exists]; the store is left as
    it was, no cookie is set and [next] is not called. [createUser] signals
    the duplicate by throwing the sentinel [user already exists], which the
    controller recognises by its message. *)
Theorem signup_duplicate_conflict (req : request) (s : state) (data row : object) :
  signUpSchema_safeParse C (req_body req) = ParseOk data ->
  In row (rows (st_db s)) ->
  email_matches (get data "email") row = true ->
  let s' := run (signup C) req s in
  st_res s' =
    mkResponse 409 (Some (Obj [ ("error", Str "User already exists") ]))
      (cookie_ops (st_res s))
  /\ st_db s' = st_db s
  /\ st_next s' = st_next s
  /\ fst (createUser C [ ("name", get data "name"); ("email", get data "email");
                         ("password", get data "password"); ("role", get data "role") ] s)
     = Throw (Error "user already exists")
  /\ added (st_log s) (st_log s') =
       [mkLog LoggerError "Create user error: Error: user already exists" NoExtra;
        mkLog LoggerError "Signup error:" (Caught (Error "user already exists"))].
Proof.
  intros Hparse Hin Hmatch s'. subst s'.
  destruct (in_matching_find _ _ _ Hin Hmatch) as [first Hfind].
  rewrite (signup_duplicate_run req s data first Hparse Hfind). simpl.
  repeat split.
  - rewrite (createUser_duplicate C _ s first) by exact Hfind. reflexivity.
  - apply added_app.
Qed.

Lemma signin_rejected_run (req : request) (s : state) (data : object) (entry : log_entry) :
  signInSchema_safeParse C (req_body req) = ParseOk data ->
  authenticateUser C [ ("email", get data "email"); ("password", get data "password") ] s =
    (Throw (Error "invalid credentials"),
     mkState (st_db s) (st_log s ++ [entry]) (st_res s) (st_next s)) ->
  run (signin C) req s =
  mkState (st_db s)
    (st_log s ++
       [entry; mkLog LoggerError "Signin error:" (Caught (Error "invalid credentials"))])
    (mkResponse 401 (Some (Obj [ ("error", Str "Invalid email or password") ]))
       (cookie_ops (st_res s)))
    (st_next s).
Proof.
  intros Hparse Hauth. controller_steps Hparse.
  rewrite Hauth. simpl. rewrite <- app_assoc. reflexivity.
Qed.

(** C2: of two sign-ins that pass validation, one for an e-mail no record
    has and one for a stored e-mail with a password that does not match, the
    responses are equal: status 401, body [Invalid email or password], no
    cookie, [next] not called, the store untouched. What differs is the log:
    [user not found] in the first run, [invalid password] in the second. *)
Theorem signin_failures_indistinguishable
    (req1 req2 : request) (s1 s2 : state) (data1 data2 user : object) :
  signInSchema_safeParse C (req_body req1) = ParseOk data1 ->
  signInSchema_safeParse C (req_body req2) = ParseOk data2 ->
  find (email_matches (get data1 "email")) (rows (st_db s1)) = None ->
  find (email_matches (get data2 "email")) (rows (st_db s2)) = Some user ->
  bcrypt_compare C (get data2 "password") (get user "password") = Normal false ->
  st_res s1 = st_res s2 ->
  let s1' := run (signin C) req1 s1 in
  let s2' := run (signin C) req2 s2 in
  st_res s1' = st_res s2'
  /\ statusCode (st_res s1') = 401
  /\ sent (st_res s1') = Some (Obj [ ("error", Str "Invalid email or password") ])
  /\ cookie_ops (st_res s1') = cookie_ops (st_res s1)
  /\ st_next s1' = st_next s1 /\ st_next s2' = st_next s2
  /\ st_db s1' = st_db s1 /\ st_db s2' = st_db s2
  /\ added (st_log s1) (st_log s1') =
       [mkLog LoggerInfo
          ("Authentication failed: user not found for email "
           ++ to_string (get data1 "email")) NoExtra;
        mkLog LoggerError "Signin error:" (Caught (Error "invalid credentials"))]
  /\ added (st_log s2) (st_log s2') =
       [mkLog LoggerInfo
          ("Authentication failed: invalid password for email "
           ++ to_string (get data2 "email")) NoExtra;
        mkLog LoggerError "Signin error:" (Caught (Error "invalid credentials"))]
  /\ added (st_log s1) (st_log s1') <> added (st_log s2) (st_log s2').
Proof.
  intros Hp1 Hp2 Hnone Hsome Hcmp Hres s1' s2'. subst s1' s2'.
  rewrite (signin_rejected_run req1 s1 data1 _ Hp1
             (authenticateUser_absent C _ s1 Hnone)).
  rewrite (signin_rejected_run req2 s2 data2 _ Hp2
             (authenticateUser_mismatch C _ s2 user Hsome Hcmp)).
  simpl. rewrite !added_app, Hres.
  repeat split.
  intros Heq. injection Heq as Heq. discriminate Heq.
Qed.

Lemma signup_created_run (req : request) (s : state) (data : object)
    (hashed token : value) :
  signUpSchema_safeParse C (req_body req) = ParseOk data ->
  find (email_matches (get data "email")) (rows (st_db s)) = None ->
  bcrypt_hash C (get data "password") 10 = Normal hashed ->
  jwttoken_sign C [ ("id", Num (next_id (st_db s))); ("email", get data "email");
                    ("role", default_to (get data "role") (Str "user")) ] = Normal token ->
  st_res (run (signup C) req s) =
    mkResponse 201
      (Some (Obj [ ("message", Str "User signed up successfully");
                   ("user", Obj [ ("id", Num (next_id (st_db s)));
                                  ("name", get data "name");
                                  ("email", get data "email");
                                  ("role", default_to (get data "role") (Str "user")) ]) ]))
      (cookie_ops (st_res s) ++ [SetCookie "token" token (cookies_getOptions C)])
  /\ st_next (run (signup C) req s) = st_next s.
Proof.
  intros Hparse Hfind Hhash Hsign. controller_steps Hparse.
  pose proof (createUser_new C
                [ ("name", get data "name"); ("email", get data "email");
                  ("password", get data "password"); ("role", get data "role") ]
                s hashed Hfind Hhash) as Hcreated.
  cbv zeta in Hcreated. rewrite Hcreated.
  unfold lift. simpl. rewrite Hsign. simpl.
  split; reflexivity.
Qed.

Lemma signin_accepted_run (req : request) (s : state) (data user : object)
    (token : value) :
  signInSchema_safeParse C (req_body req) = ParseOk data ->
  find (email_matches (get data "email")) (rows (st_db s)) = Some user ->
  bcrypt_compare C (get data "password") (get user "password") = Normal true ->
  jwttoken_sign C [ ("id", get user "id"); ("email", get user "email");
                    ("role", get user "role") ] = Normal token ->
  st_res (run (signin C) req s) =
    mkResponse 200
      (Some (Obj [ ("message", Str "User signed in successfully");
                   ("user", Obj [ ("id", get user "id");
                                  ("name", get user "name");
                                  ("email", get user "email");
                                  ("role", get user "role") ]) ]))
      (cookie_ops (st_res s) ++ [SetCookie "token" token (cookies_getOptions C)])
  /\ st_next (run (signin C) req s) = st_next s.
Proof.
  intros Hparse Hfind Hcmp Hsign. controller_steps Hparse.
  rewrite (authenticateUser_match C _ s user) by assumption.
  unfold lift.
  rewrite !get_omit_other by discriminate.
  rewrite Hsign. simpl. split; reflexivity.
Qed.

(** C4: a sign-up that succeeds is answered 201, a sign-in that succeeds
    200; in both the body is a message and a [user] object with exactly the
    fields [id], [name], [email] and [role], read from the created or the
    stored record: no [password] field, and nothing read from the password
    column. [authenticateUser] returns the stored record without its
    [password] property. *)
Theorem success_responses_are_public :
  (forall req s data hashed token,
     signUpSchema_safeParse C (req_body req) = ParseOk data ->
     find (email_matches (get data "email")) (rows (st_db s)) = None ->
     bcrypt_hash C (get data "password") 10 = Normal hashed ->
     jwttoken_sign C [ ("id", Num (next_id (st_db s))); ("email", get data "email");
                       ("role", default_to (get data "role") (Str "user")) ]
       = Normal token ->
     let s' := run (signup C) req s in
     statusCode (st_res s') = 201
     /\ sent (st_res s') =
          Some (Obj [ ("message", Str "User signed up successfully");
                      ("user", Obj [ ("id", Num (next_id (st_db s)));
                                     ("name", get data "name");
                                     ("email", get data "email");
                                     ("role", default_to (get data "role") (Str "user")) ]) ])
     /\ st_next s' = st_next s)
  /\ (forall req s data user token,
        signInSchema_safeParse C (req_body req) = ParseOk data ->
        find (email_matches (get data "email")) (rows (st_db s)) = Some user ->
        bcrypt_compare C (get data "password") (get user "password") = Normal true ->
        jwttoken_sign C [ ("id", get user "id"); ("email", get user "email");
                          ("role", get user "role") ] = Normal token ->
        let s' := run (signin C) req s in
        statusCode (st_res s') = 200
        /\ sent (st_res s') =
             Some (Obj [ ("message", Str "User signed in successfully");
                         ("user", Obj [ ("id", get user "id");
                                        ("name", get user "name");
                                        ("email", get user "email");
                                        ("role", get user "role") ]) ])
        /\ st_next s' = st_next s
        /\ fst (authenticateUser C [ ("email", get data "email");
                                     ("password", get data "password") ] s)
           = Normal (omit "password" user)
        /\ has (omit "password" user) "password" = false).
Proof.
  split.
  - intros req s data hashed token Hparse Hfind Hhash Hsign s'. subst s'.
    destruct (signup_created_run req s data hashed token Hparse Hfind Hhash Hsign)
      as [Hres Hnext].
    rewrite Hres, Hnext. repeat split.
  - intros req s data user token Hparse Hfind Hcmp Hsign s'. subst s'.
    destruct (signin_accepted_run req s data user token Hparse Hfind Hcmp Hsign)
      as [Hres Hnext].
    rewrite Hres, Hnext. repeat split.
    + rewrite (authenticateUser_match C _ s user) by assumption. reflexivity.
    + apply has_omit.
Qed.

(** A body that fails validation: 400 is staged on the response, then
    [formatValidator] throws while the argument of [json] is evaluated, and
    the handler's [catch] hands the [ReferenceError] to [next]. Nothing is
    sent. *)
Lemma signup_invalid_run (req : request) (s : state) (err : value) :
  signUpSchema_safeParse C (req_body req) = ParseFail err ->
  run (signup C) req s =
  mkState (st_db s)
    (st_log s ++
       [mkLog LoggerError "Signup error:" (Caught (ReferenceError "errors is not defined"))])
    (mkResponse 400 (sent (st_res s)) (cookie_ops (st_res s)))
    (st_next s ++ [Some (ReferenceError "errors is not defined")]).
Proof.
  intros Hparse. controller_steps Hparse. reflexivity.
Qed.

Lemma signin_invalid_run (req : request) (s : state) (err : value) :
  signInSchema_safeParse C (req_body req) = ParseFail err ->
  run (signin C) req s =
  mkState (st_db s)
    (st_log s ++
       [mkLog LoggerError "Signin error:" (Caught (ReferenceError "errors is not defined"))])
    (mkResponse 400 (sent (st_res s)) (cookie_ops (st_res s)))
    (st_next s ++ [Some (ReferenceError "errors is not defined")]).
Proof.
  intros Hparse. controller_steps Hparse. reflexivity.
Qed.

End Controller.

(** Al signs up a second time, the address in another case. *)
Lemma signup_duplicate_conflict_witness :
  st_res (run (signup production) signup_al_again one_user) =
    mkResponse 409 (Some (Obj [ ("error", Str "User already exists") ])) []
  /\ st_db (run (signup production) signup_al_again one_user) = st_db one_user
  /\ st_next (run (signup production) signup_al_again one_user) = [].
Proof.
  destruct (signup_duplicate_conflict production signup_al_again one_user
              [ ("name", Str "Al"); ("email", Str "al@b.com");
                ("password", Str "secret1"); ("role", Str "user") ] al)
    as (Hres & Hdb & Hnext & _).
  - reflexivity.
  - simpl. left. reflexivity.
  - reflexivity.
  - split; [exact Hres|]. split; [exact Hdb | exact Hnext].
Defined.

(** An unknown address against a wrong password for Al. *)
Lemma signin_failures_indistinguishable_witness :
  st_res (run (signin production) signin_nobody one_user) =
  st_res (run (signin production) signin_al_wrong one_user)
  /\ st_res (run (signin production) signin_nobody one_user) =
     mkResponse 401 (Some (Obj [ ("error", Str "Invalid email or password") ])) [].
Proof.
  destruct (signin_failures_indistinguishable production
              signin_nobody signin_al_wrong one_user one_user
              [ ("email", Str "zed@b.com"); ("password", Str "secret1") ]
              [ ("email", Str "al@b.com"); ("password", Str "secret9") ] al)
    as (Hsame & Hstatus & Hsent & Hcookies & _);
    [reflexivity | reflexivity | reflexivity | reflexivity | reflexivity | reflexivity |].
  split; [exact Hsame|].
  destruct (st_res (run (signin production) signin_nobody one_user)) as [code body ops].
  simpl in Hstatus, Hsent, Hcookies. subst. reflexivity.
Defined.

(** Bo signs up, Al signs in. *)
Lemma success_responses_are_public_witness :
  sent (st_res (run (signup production) signup_bo one_user)) =
    Some (Obj [ ("message", Str "User signed up successfully");
                ("user", Obj [ ("id", Num 2); ("name", Str "Bo");
                               ("email", Str "bo@b.com"); ("role", Str "user") ]) ])
  /\ sent (st_res (run (signin production) signin_al one_user)) =
       Some (Obj [ ("message", Str "User signed in successfully");
                   ("user", Obj [ ("id", Num 1); ("name", Str "Al");
                                  ("email", Str "al@b.com"); ("role", Str "admin") ]) ]).
Proof.
  destruct (success_responses_are_public production) as [Hup Hin].
  split.
  - destruct (Hup signup_bo one_user
                [ ("name", Str "Bo"); ("email", Str "bo@b.com");
                  ("password", Str "secret2"); ("role", Str "user") ]
                (sample_hash (Str "secret2")) (Str "jwt:2"))
      as (_ & Hsent & _);
      [reflexivity | reflexivity | reflexivity | reflexivity |].
    exact Hsent.
  - destruct (Hin signin_al one_user
                [ ("email", Str "al@b.com"); ("password", Str "secret1") ]
                al (Str "jwt:1"))
      as (_ & Hsent & _);
      [reflexivity | reflexivity | reflexivity | reflexivity |].
    exact Hsent.
Defined.

(** C3 (the code departs from it): a sign-up whose password is too short and
    a sign-in without a password both fail validation, and neither is
    answered: 400 is staged, no body is sent, and the [ReferenceError] that
    [formatValidator] throws reaches [next]. *)
Theorem invalid_body_reaches_next :
  signUpSchema_safeParse production (req_body short_password_signup) =
    ParseFail (zod_error "Password must be at least 6 characters")
  /\ signInSchema_safeParse production (req_body empty_signin) =
       ParseFail (zod_error "Required")
  /\ formatValidator production (zod_error "Password must be at least 6 characters") =
       Throw (ReferenceError "errors is not defined")
  /\ st_res (serve (signup production) short_password_signup one_user) =
       mkResponse 400 None []
  /\ st_next (serve (signup production) short_password_signup one_user) =
       [Some (ReferenceError "errors is not defined")]
  /\ st_res (serve (signin production) empty_signin one_user) =
       mkResponse 400 None []
  /\ st_next (serve (signin production) empty_signin one_user) =
       [Some (ReferenceError "errors is not defined")].
Proof.
  assert (Hup : signUpSchema_safeParse production (req_body short_password_signup) =
                ParseFail (zod_error "Password must be at least 6 characters"))
    by reflexivity.
  assert (Hin : signInSchema_safeParse production (req_body empty_signin) =
                ParseFail (zod_error "Required"))
    by reflexivity.
  split; [exact Hup|]. split; [exact Hin|].
  split; [apply formatValidator_throws|].
  unfold serve.
  rewrite (signup_invalid_run production _ (arrive one_user) _ Hup).
  rewrite (signin_invalid_run production _ (arrive one_user) _ Hin).
  repeat split.
Qed.

(* ================================================================== *)
(** * Further properties of the service *)

Lemma find_app_last (p : object -> bool) (l : list object) (row : object) :
  find p l = None -> p row = true -> find p (l ++ [row]) = Some row.
Proof.
  intros Hnone Hrow. induction l as [|r l IH]; simpl in *.
  - now rewrite Hrow.
  - destruct (p r); [discriminate | auto].
Qed.

Lemma authenticateUser_compare_fault (C : collaborators) (args : object) (s : state)
    (user : object) (fault : error) :
  find (email_matches (get args "email")) (rows (st_db s)) = Some user ->
  bcrypt_compare C (get args "password") (get user "password") = Throw fault ->
  authenticateUser C args s =
  (Throw (Error "Password comparison failed"),
   mkState (st_db s)
     (st_log s ++
        [mkLog LoggerError ("Password comparison error: " ++ error_to_string fault) NoExtra;
         mkLog LoggerError
           "Authenticate user error: Error: Password comparison failed" NoExtra])
     (st_res s) (st_next s)).
Proof.
  intros Hfind Hcmp.
  unfold authenticateUser, comparePassword, try_catch, bind, lift, throw,
    db_select_by_email, logger_error, write_log.
  cbv beta. rewrite select_is_find, Hfind. simpl. rewrite Hcmp. simpl.
  rewrite <- app_assoc. reflexivity.
Qed.



(** X2: when [createUser] returns, it returns [id], [name], [email], [role]
    and [created_at] and nothing else; the e-mail was not in the store; the
    store has exactly one row more, under the next id, and the password that
    row holds is what bcrypt returned for the given one at cost 10. *)
Theorem createUser_returns (C : collaborators) (args : object) (s : state)
    (user : object) :
  fst (createUser C args s) = Normal user ->
  keys user = ["id"; "name"; "email"; "role"; "created_at"]
  /\ get user "id" = Num (next_id (st_db s))
  /\ get user "name" = get args "name"
  /\ get user "email" = get args "email"
  /\ get user "role" = default_to (get args "role") (Str "user")
  /\ find (email_matches (get args "email")) (rows (st_db s)) = None
  /\ exists hashed row,
       bcrypt_hash C (get args "password") 10 = Normal hashed
       /\ rows (st_db (snd (createUser C args s))) = rows (st_db s) ++ [row]
       /\ next_id (st_db (snd (createUser C args s))) = next_id (st_db s) + 1
       /\ get row "id" = get user "id"
       /\ get row "email" = get args "email"
       /\ get row "password" = hashed.
Proof.
  intros Hret.
  destruct (find (email_matches (get args "email")) (rows (st_db s)))
    as [row|] eqn:Hfind.
  - rewrite (createUser_duplicate C args s row Hfind) in Hret. discriminate.
  - destruct (bcrypt_hash C (get args "password") 10) as [hashed|fault] eqn:Hhash.
    + pose proof (createUser_new C args s hashed Hfind Hhash) as Hnew.
      cbv zeta in Hnew. rewrite Hnew in *. simpl in Hret.
      injection Hret as <-. simpl.
      repeat split.
      eexists hashed, _. repeat split.
    + rewrite (createUser_hashing_fault C args s fault Hfind Hhash) in Hret.
      discriminate.
Qed.

Lemma createUser_returns_witness :
  exists user,
    fst (createUser production
           [ ("name", Str "Bo"); ("email", Str "bo@b.com"); ("password", Str "secret2") ]
           one_user) = Normal user
    /\ keys user = ["id"; "name"; "email"; "role"; "created_at"]
    /\ get user "id" = Num 2
    /\ get user "role" = Str "user".
Proof.
  eexists. split; [reflexivity|].
  destruct (createUser_returns production
              [ ("name", Str "Bo"); ("email", Str "bo@b.com"); ("password", Str "secret2") ]
              one_user _ eq_refl)
    as (Hkeys & Hid & _ & _ & Hrole & _).
  split; [exact Hkeys|]. split; [exact Hid | exact Hrole].
Defined.



(** X4: [authenticateUser] returns a user only if the store has a record
    under the e-mail and bcrypt compared the given password with that
    record's hash as equal; what it returns is that record without its
    [password] property, every other property unchanged. *)
Theorem authenticateUser_sound (C : collaborators) (args : object) (s : state)
    (safeUser : object) :
  fst (authenticateUser C args s) = Normal safeUser ->
  exists user,
    find (email_matches (get args "email")) (rows (st_db s)) = Some user
    /\ In user (rows (st_db s))
    /\ bcrypt_compare C (get args "password") (get user "password") = Normal true
    /\ safeUser = omit "password" user
    /\ has safeUser "password" = false
    /\ (forall k, k <> "password" -> get safeUser k = get user k)
    /\ st_db (snd (authenticateUser C args s)) = st_db s.
Proof.
  intros Hret.
  destruct (find (email_matches (get args "email")) (rows (st_db s)))
    as [user|] eqn:Hfind.
  - destruct (bcrypt_compare C (get args "password") (get user "password"))
      as [[|]|fault] eqn:Hcmp.
    + rewrite (authenticateUser_match C args s user Hfind Hcmp) in *.
      simpl in *. injection Hret as <-.
      exists user.
      split; [reflexivity|].
      split; [apply find_some in Hfind; tauto|].
      split; [exact Hcmp|].
      split; [reflexivity|].
      split; [apply has_omit|].
      split; [|reflexivity].
      intros k Hk. apply get_omit_other. congruence.
    + rewrite (authenticateUser_mismatch C args s user Hfind Hcmp) in Hret.
      discriminate.
    + rewrite (authenticateUser_compare_fault C args s user fault Hfind Hcmp) in Hret.
      discriminate.
  - rewrite (authenticateUser_absent C args s Hfind) in Hret. discriminate.
Qed.

Lemma authenticateUser_sound_witness :
  exists user,
    find (email_matches (Str "al@b.com")) (rows (st_db one_user)) = Some user
    /\ fst (authenticateUser production
              [ ("email", Str "al@b.com"); ("password", Str "secret1") ] one_user)
       = Normal (omit "password" user).
Proof.
  destruct (authenticateUser_sound production
              [ ("email", Str "al@b.com"); ("password", Str "secret1") ] one_user
              (omit "password" al) eq_refl)
    as (user & Hfind & _ & _ & Hsafe & _).
  exists user. split; [exact Hfind|].
  rewrite <- Hsafe. reflexivity.
Defined.

(* ================================================================== *)
(** * Further properties of the controller *)

Section Flows.

Variable C : collaborators.

Ltac flow_steps H :=
  unfold run, signup, signin, try_catch, bind;
  rewrite H; cbv beta zeta.

Lemma authenticateUser_frame (args : object) (s : state) :
  st_db (snd (authenticateUser C args s)) = st_db s
  /\ st_res (snd (authenticateUser C args s)) = st_res s
  /\ st_next (snd (authenticateUser C args s)) = st_next s.
Proof.
  destruct (find (email_matches (get args "email")) (rows (st_db s)))
    as [user|] eqn:Hfind.
  - destruct (bcrypt_compare C (get args "password") (get user "password"))
      as [[|]|fault] eqn:Hcmp.
    + rewrite (authenticateUser_match C args s user Hfind Hcmp). repeat split.
    + rewrite (authenticateUser_mismatch C args s user Hfind Hcmp). repeat split.
    + rewrite (authenticateUser_compare_fault C args s user fault Hfind Hcmp).
      repeat split.
  - rewrite (authenticateUser_absent C args s Hfind). repeat split.
Qed.

Lemma signin_store_untouched (req : request) (s : state) :
  st_db (run (signin C) req s) = st_db s.
Proof.
  unfold run, signin, try_catch, bind.
  destruct (signInSchema_safeParse C (req_body req)) as [data|err]; [|reflexivity].
  cbv beta zeta.
  destruct (authenticateUser_frame
              [ ("email", get data "email"); ("password", get data "password") ] s)
    as (Hdb & _).
  destruct (authenticateUser C _ s) as [[user|e] s'].
  - unfold lift.
    destruct (jwttoken_sign C _) as [token|fault]; simpl in *; [exact Hdb|].
    destruct (err_message fault =? "invalid credentials")%string; exact Hdb.
  - simpl in *.
    destruct (err_message e =? "invalid credentials")%string; exact Hdb.
Qed.

Lemma signup_created_db (req : request) (s : state) (data : object)
    (hashed : value) (signed : completion value) :
  signUpSchema_safeParse C (req_body req) = ParseOk data ->
  find (email_matches (get data "email")) (rows (st_db s)) = None ->
  bcrypt_hash C (get data "password") 10 = Normal hashed ->
  jwttoken_sign C [ ("id", Num (next_id (st_db s))); ("email", get data "email");
                    ("role", default_to (get data "role") (Str "user")) ] = signed ->
  st_db (run (signup C) req s) =
  mkStore (rows (st_db s) ++ [stored (st_db s) data hashed])
          (next_id (st_db s) + 1) (clock (st_db s)).
Proof.
  intros Hparse Hfind Hhash Hsign. flow_steps Hparse.
  pose proof (createUser_new C
                [ ("name", get data "name"); ("email", get data "email");
                  ("password", get data "password"); ("role", get data "role") ]
                s hashed Hfind Hhash) as Hcreated.
  cbv zeta in Hcreated. rewrite Hcreated.
  unfold lift. simpl. rewrite Hsign.
  destruct signed as [token|fault]; simpl; [reflexivity|].
  destruct (err_message fault =? "user already exists")%string; reflexivity.
Qed.

(** X5: sign-up, then sign-in. After a sign-up that is answered 201, a
    sign-in with the same e-mail and a password that bcrypt compares equal
    to the stored hash is answered 200 with the same public user, sets the
    cookie [token], and leaves the store as the sign-up left it. *)
Theorem signup_then_signin (req_up req_in : request) (s : state)
    (data_up data_in : object) (e : string) (hashed token : value) :
  signUpSchema_safeParse C (req_body req_up) = ParseOk data_up ->
  get data_up "email" = Str e ->
  find (email_matches (Str e)) (rows (st_db s)) = None ->
  bcrypt_hash C (get data_up "password") 10 = Normal hashed ->
  jwttoken_sign C [ ("id", Num (next_id (st_db s))); ("email", Str e);
                    ("role", default_to (get data_up "role") (Str "user")) ]
    = Normal token ->
  signInSchema_safeParse C (req_body req_in) = ParseOk data_in ->
  get data_in "email" = Str e ->
  bcrypt_compare C (get data_in "password") hashed = Normal true ->
  let s1 := serve (signup C) req_up s in
  let s2 := serve (signin C) req_in s1 in
  let user := Obj [ ("id", Num (next_id (st_db s))); ("name", get data_up "name");
                    ("email", Str e);
                    ("role", default_to (get data_up "role") (Str "user")) ] in
  st_res s1 =
    mkResponse 201
      (Some (Obj [ ("message", Str "User signed up successfully"); ("user", user) ]))
      [SetCookie "token" token (cookies_getOptions C)]
  /\ st_res s2 =
       mkResponse 200
         (Some (Obj [ ("message", Str "User signed in successfully"); ("user", user) ]))
         [SetCookie "token" token (cookies_getOptions C)]
  /\ st_next s1 = [] /\ st_next s2 = []
  /\ st_db s2 = st_db s1.
Proof.
  intros Hup He Hnone Hhash Hsign Hin He' Hcmp s1 s2 user.
  assert (Hnone' : find (email_matches (get data_up "email"))
                     (rows (st_db (arrive s))) = None)
    by (rewrite He; exact Hnone).
  assert (Hsign' : jwttoken_sign C
                     [ ("id", Num (next_id (st_db (arrive s))));
                       ("email", get data_up "email");
                       ("role", default_to (get data_up "role") (Str "user")) ]
                   = Normal token)
    by (rewrite He; exact Hsign).
  destruct (signup_created_run C req_up (arrive s) data_up hashed token
              Hup Hnone' Hhash Hsign') as [Hres1 Hnext1].
  pose proof (signup_created_db req_up (arrive s) data_up hashed (Normal token)
                Hup Hnone' Hhash Hsign') as Hdb1.
  fold (serve (signup C) req_up s) in Hres1, Hnext1, Hdb1. fold s1 in Hres1, Hnext1, Hdb1.
  assert (Hfind2 : find (email_matches (get data_in "email"))
                     (rows (st_db (arrive s1))) = Some (stored (st_db s) data_up hashed)).
  { simpl. rewrite Hdb1, He'. simpl rows. apply find_app_last; [exact Hnone|].
    unfold email_matches, stored. simpl. rewrite He. apply String.eqb_refl. }
  destruct (signin_accepted_run C req_in (arrive s1) data_in
              (stored (st_db s) data_up hashed) token Hin Hfind2)
    as [Hres2 Hnext2].
  { exact Hcmp. }
  { unfold stored. simpl. rewrite He. exact Hsign. }
  fold (serve (signin C) req_in s1) in Hres2, Hnext2. fold s2 in Hres2, Hnext2.
  split; [rewrite Hres1; subst user; rewrite He; reflexivity|].
  split; [rewrite Hres2; subst user; unfold stored; simpl; rewrite He; reflexivity|].
  split; [exact Hnext1|]. split; [exact Hnext2|].
  subst s2. unfold serve. rewrite signin_store_untouched. reflexivity.
Qed.

(** X6: a sign-up answered 201 stores one record; any later sign-up whose
    parsed e-mail is the same is answered 409, sets no cookie, and leaves
    the store with that one record. *)
Theorem signup_twice (req1 req2 : request) (s : state) (data1 data2 : object)
    (e : string) (hashed token : value) :
  signUpSchema_safeParse C (req_body req1) = ParseOk data1 ->
  signUpSchema_safeParse C (req_body req2) = ParseOk data2 ->
  get data1 "email" = Str e ->
  get data2 "email" = Str e ->
  find (email_matches (Str e)) (rows (st_db s)) = None ->
  bcrypt_hash C (get data1 "password") 10 = Normal hashed ->
  jwttoken_sign C [ ("id", Num (next_id (st_db s))); ("email", Str e);
                    ("role", default_to (get data1 "role") (Str "user")) ]
    = Normal token ->
  let s1 := serve (signup C) req1 s in
  let s2 := serve (signup C) req2 s1 in
  statusCode (st_res s1) = 201
  /\ rows (st_db s1) = rows (st_db s) ++ [stored (st_db s) data1 hashed]
  /\ st_res s2 =
       mkResponse 409 (Some (Obj [ ("error", Str "User already exists") ])) []
  /\ st_next s2 = []
  /\ st_db s2 = st_db s1.
Proof.
  intros Hp1 Hp2 He1 He2 Hnone Hhash Hsign s1 s2.
  assert (Hnone' : find (email_matches (get data1 "email"))
                     (rows (st_db (arrive s))) = None)
    by (rewrite He1; exact Hnone).
  assert (Hsign' : jwttoken_sign C
                     [ ("id", Num (next_id (st_db (arrive s))));
                       ("email", get data1 "email");
                       ("role", default_to (get data1 "role") (Str "user")) ]
                   = Normal token)
    by (rewrite He1; exact Hsign).
  destruct (signup_created_run C req1 (arrive s) data1 hashed token
              Hp1 Hnone' Hhash Hsign') as [Hres1 _].
  pose proof (signup_created_db req1 (arrive s) data1 hashed (Normal token)
                Hp1 Hnone' Hhash Hsign') as Hdb1.
  fold (serve (signup C) req1 s) in Hres1, Hdb1. fold s1 in Hres1, Hdb1.
  assert (Hfind2 : find (email_matches (get data2 "email"))
                     (rows (st_db (arrive s1))) = Some (stored (st_db s) data1 hashed)).
  { simpl. rewrite Hdb1, He2. simpl rows. apply find_app_last; [exact Hnone|].
    unfold email_matches, stored. simpl. rewrite He1. apply String.eqb_refl. }
  pose proof (signup_duplicate_run C req2 (arrive s1) data2 _ Hp2 Hfind2) as Hrun2.
  fold (serve (signup C) req2 s1) in Hrun2. fold s2 in Hrun2.
  split; [rewrite Hres1; reflexivity|].
  split; [rewrite Hdb1; reflexivity|].
  rewrite Hrun2. repeat split.
Qed.

(** What sign-up leaves when the record is stored and the signer throws. *)
Lemma signup_sign_fault_run (req : request) (s : state) (data : object)
    (hashed : value) (fault : error) :
  signUpSchema_safeParse C (req_body req) = ParseOk data ->
  find (email_matches (get data "email")) (rows (st_db s)) = None ->
  bcrypt_hash C (get data "password") 10 = Normal hashed ->
  jwttoken_sign C [ ("id", Num (next_id (st_db s))); ("email", get data "email");
                    ("role", default_to (get data "role") (Str "user")) ] = Throw fault ->
  st_res (run (signup C) req s) =
    (if (err_message fault =? "user already exists")%string
     then mkResponse 409 (Some (Obj [ ("error", Str "User already exists") ]))
            (cookie_ops (st_res s))
     else st_res s)
  /\ st_next (run (signup C) req s) =
     (if (err_message fault =? "user already exists")%string
      then st_next s else st_next s ++ [Some fault]).
Proof.
  intros Hparse Hfind Hhash Hsign. flow_steps Hparse.
  pose proof (createUser_new C
                [ ("name", get data "name"); ("email", get data "email");
                  ("password", get data "password"); ("role", get data "role") ]
                s hashed Hfind Hhash) as Hcreated.
  cbv zeta in Hcreated. rewrite Hcreated.
  unfold lift. simpl. rewrite Hsign. simpl.
  destruct (err_message fault =? "user already exists")%string; split; reflexivity.
Qed.

(** X7: when the token signer throws after the record was stored, the
    record stays: nothing is answered and no cookie is set, the fault goes
    to [next], and the store holds the new record with its hash. *)
Theorem signup_token_fault_keeps_record (req : request) (s : state) (data : object)
    (hashed : value) (fault : error) :
  signUpSchema_safeParse C (req_body req) = ParseOk data ->
  find (email_matches (get data "email")) (rows (st_db s)) = None ->
  bcrypt_hash C (get data "password") 10 = Normal hashed ->
  jwttoken_sign C [ ("id", Num (next_id (st_db s))); ("email", get data "email");
                    ("role", default_to (get data "role") (Str "user")) ] = Throw fault ->
  err_message fault <> "user already exists" ->
  let s' := run (signup C) req s in
  st_res s' = st_res s
  /\ st_next s' = st_next s ++ [Some fault]
  /\ rows (st_db s') = rows (st_db s) ++ [stored (st_db s) data hashed]
  /\ next_id (st_db s') = next_id (st_db s) + 1.
Proof.
  intros Hparse Hfind Hhash Hsign Hmsg s'. subst s'.
  destruct (signup_sign_fault_run req s data hashed fault Hparse Hfind Hhash Hsign)
    as [Hres Hnext].
  rewrite (signup_created_db req s data hashed (Throw fault) Hparse Hfind Hhash Hsign).
  apply String.eqb_neq in Hmsg. rewrite Hmsg in Hres, Hnext.
  rewrite Hres, Hnext. repeat split.
Qed.

(** X8: a fault of bcrypt during sign-up is not answered: the handler hands
    [Password hashing failed] to [next], sends nothing and stores nothing.
    The fault's own text goes to the log only. *)
Theorem signup_hashing_fault_forwarded (req : request) (s : state) (data : object)
    (fault : error) :
  signUpSchema_safeParse C (req_body req) = ParseOk data ->
  find (email_matches (get data "email")) (rows (st_db s)) = None ->
  bcrypt_hash C (get data "password") 10 = Throw fault ->
  let s' := run (signup C) req s in
  st_res s' = st_res s
  /\ st_next s' = st_next s ++ [Some (Error "Password hashing failed")]
  /\ st_db s' = st_db s
  /\ added (st_log s) (st_log s') =
       [mkLog LoggerError ("Password hashing error: " ++ error_to_string fault) NoExtra;
        mkLog LoggerError "Create user error: Error: Password hashing failed" NoExtra;
        mkLog LoggerError "Signup error:" (Caught (Error "Password hashing failed"))].
Proof.
  intros Hparse Hfind Hhash s'. subst s'. flow_steps Hparse.
  rewrite (createUser_hashing_fault C _ s fault) by assumption.
  simpl. repeat split.
  rewrite <- app_assoc. apply added_app.
Qed.

(** X9: a fault of bcrypt during sign-in is not a mismatch: the handler
    does not answer 401, it hands [Password comparison failed] to [next] and
    sends nothing. *)
Theorem signin_compare_fault_forwarded (req : request) (s : state)
    (data user : object) (fault : error) :
  signInSchema_safeParse C (req_body req) = ParseOk data ->
  find (email_matches (get data "email")) (rows (st_db s)) = Some user ->
  bcrypt_compare C (get data "password") (get user "password") = Throw fault ->
  let s' := run (signin C) req s in
  st_res s' = st_res s
  /\ st_next s' = st_next s ++ [Some (Error "Password comparison failed")]
  /\ added (st_log s) (st_log s') =
       [mkLog LoggerError ("Password comparison error: " ++ error_to_string fault) NoExtra;
        mkLog LoggerError "Authenticate user error: Error: Password comparison failed"
          NoExtra;
        mkLog LoggerError "Signin error:" (Caught (Error "Password comparison failed"))].
Proof.
  intros Hparse Hfind Hcmp s'. subst s'. flow_steps Hparse.
  rewrite (authenticateUser_compare_fault C _ s user fault) by assumption.
  simpl. repeat split.
  rewrite <- app_assoc. apply added_app.
Qed.

Lemma signin_sign_fault_run (req : request) (s : state) (data user : object)
    (fault : error) :
  signInSchema_safeParse C (req_body req) = ParseOk data ->
  find (email_matches (get data "email")) (rows (st_db s)) = Some user ->
  bcrypt_compare C (get data "password") (get user "password") = Normal true ->
  jwttoken_sign C [ ("id", get user "id"); ("email", get user "email");
                    ("role", get user "role") ] = Throw fault ->
  st_res (run (signin C) req s) =
    (if (err_message fault =? "invalid credentials")%string
     then mkResponse 401 (Some (Obj [ ("error", Str "Invalid email or password") ]))
            (cookie_ops (st_res s))
     else st_res s)
  /\ st_next (run (signin C) req s) =
     (if (err_message fault =? "invalid credentials")%string
      then st_next s else st_next s ++ [Some fault]).
Proof.
  intros Hparse Hfind Hcmp Hsign. flow_steps Hparse.
  rewrite (authenticateUser_match C _ s user) by assumption.
  unfold lift. rewrite !get_omit_other by discriminate.
  rewrite Hsign. simpl.
  destruct (err_message fault =? "invalid credentials")%string; split; reflexivity.
Qed.

(** X10: every sign-in ends in one of three ways. It answers 200 with the
    public user and sets the cookie [token]: only when the store has a
    record under the parsed e-mail and bcrypt compared the password equal.
    Or it answers 401 [Invalid email or password] and sets no cookie. Or it
    sends nothing, sets no cookie and calls [next] once with an error. It
    never calls [next] after answering, and it never changes the store. *)
Theorem signin_outcomes (req : request) (s : state) :
  let s' := run (signin C) req s in
  st_db s' = st_db s
  /\ ((exists data user token,
         signInSchema_safeParse C (req_body req) = ParseOk data
         /\ find (email_matches (get data "email")) (rows (st_db s)) = Some user
         /\ bcrypt_compare C (get data "password") (get user "password") = Normal true
         /\ st_res s' =
              mkResponse 200
                (Some (Obj [ ("message", Str "User signed in successfully");
                             ("user", Obj [ ("id", get user "id");
                                            ("name", get user "name");
                                            ("email", get user "email");
                                            ("role", get user "role") ]) ]))
                (cookie_ops (st_res s) ++ [SetCookie "token" token (cookies_getOptions C)])
         /\ st_next s' = st_next s)
      \/ (st_res s' =
            mkResponse 401 (Some (Obj [ ("error", Str "Invalid email or password") ]))
              (cookie_ops (st_res s))
          /\ st_next s' = st_next s)
      \/ (exists e,
            sent (st_res s') = sent (st_res s)
            /\ cookie_ops (st_res s') = cookie_ops (st_res s)
            /\ st_next s' = st_next s ++ [Some e])).
Proof.
  intros s'. subst s'. split; [apply signin_store_untouched|].
  destruct (signInSchema_safeParse C (req_body req)) as [data|err] eqn:Hparse.
  2:{ right. right. rewrite (signin_invalid_run C req s err Hparse).
      eexists. repeat split. }
  destruct (find (email_matches (get data "email")) (rows (st_db s)))
    as [user|] eqn:Hfind.
  2:{ right. left.
      rewrite (signin_rejected_run C req s data _ Hparse
                 (authenticateUser_absent C _ s Hfind)).
      split; reflexivity. }
  destruct (bcrypt_compare C (get data "password") (get user "password"))
    as [[|]|fault] eqn:Hcmp.
  - destruct (jwttoken_sign C [ ("id", get user "id"); ("email", get user "email");
                                ("role", get user "role") ])
      as [token|fault] eqn:Hsign.
    + left. exists data, user, token.
      destruct (signin_accepted_run C req s data user token Hparse Hfind Hcmp Hsign)
        as [Hres Hnext].
      repeat split; assumption.
    + destruct (signin_sign_fault_run req s data user fault Hparse Hfind Hcmp Hsign)
        as [Hres Hnext].
      destruct (err_message fault =? "invalid credentials")%string.
      * right. left. split; assumption.
      * right. right. exists fault. rewrite Hres, Hnext. repeat split.
  - right. left.
    rewrite (signin_rejected_run C req s data _ Hparse
               (authenticateUser_mismatch C _ s user Hfind Hcmp)).
    split; reflexivity.
  - right. right. exists (Error "Password comparison failed").
    unfold run, signin, try_catch, bind. rewrite Hparse. cbv beta zeta.
    rewrite (authenticateUser_compare_fault C _ s user fault) by assumption.
    simpl. repeat split.
Qed.

(** X11: every sign-up ends in one of three ways. It answers 201 with the
    public user and sets the cookie [token]: only when the parsed e-mail
    was not in the store and bcrypt returned a hash. Or it answers 409 [User
    already exists] and sets no cookie. Or it sends nothing, sets no cookie
    and calls [next] once with an error. The store is left as it was, or
    with exactly one record more, which holds bcrypt's hash under the next
    id. *)
Theorem signup_outcomes (req : request) (s : state) :
  let s' := run (signup C) req s in
  ((exists data hashed token,
      signUpSchema_safeParse C (req_body req) = ParseOk data
      /\ find (email_matches (get data "email")) (rows (st_db s)) = None
      /\ bcrypt_hash C (get data "password") 10 = Normal hashed
      /\ st_res s' =
           mkResponse 201
             (Some (Obj [ ("message", Str "User signed up successfully");
                          ("user", Obj [ ("id", Num (next_id (st_db s)));
                                         ("name", get data "name");
                                         ("email", get data "email");
                                         ("role", default_to (get data "role")
                                                    (Str "user")) ]) ]))
             (cookie_ops (st_res s) ++ [SetCookie "token" token (cookies_getOptions C)])
      /\ st_next s' = st_next s)
   \/ (st_res s' =
         mkResponse 409 (Some (Obj [ ("error", Str "User already exists") ]))
           (cookie_ops (st_res s))
       /\ st_next s' = st_next s)
   \/ (exists e,
         sent (st_res s') = sent (st_res s)
         /\ cookie_ops (st_res s') = cookie_ops (st_res s)
         /\ st_next s' = st_next s ++ [Some e]))
  /\ (st_db s' = st_db s
      \/ exists data hashed,
           signUpSchema_safeParse C (req_body req) = ParseOk data
           /\ bcrypt_hash C (get data "password") 10 = Normal hashed
           /\ st_db s' =
                mkStore (rows (st_db s) ++ [stored (st_db s) data hashed])
                        (next_id (st_db s) + 1) (clock (st_db s))).
Proof.
  intros s'. subst s'.
  destruct (signUpSchema_safeParse C (req_body req)) as [data|err] eqn:Hparse.
  2:{ rewrite (signup_invalid_run C req s err Hparse). split; [|now left].
      right. right. eexists. repeat split. }
  destruct (find (email_matches (get data "email")) (rows (st_db s)))
    as [row|] eqn:Hfind.
  { rewrite (signup_duplicate_run C req s data row Hparse Hfind).
    split; [|now left]. right. left. split; reflexivity. }
  destruct (bcrypt_hash C (get data "password") 10) as [hashed|fault] eqn:Hhash.
  2:{ destruct (signup_hashing_fault_run C req s data fault Hparse Hfind Hhash)
        as (Hres & Hnext & Hdb).
      split; [|now left]. right. right. eexists.
      rewrite Hres, Hnext. repeat split. }
  pose proof (signup_created_db req s data hashed _ Hparse Hfind Hhash eq_refl) as Hdb.
  split; [|right; exists data, hashed; repeat split; assumption].
  destruct (jwttoken_sign C [ ("id", Num (next_id (st_db s))); ("email", get data "email");
                              ("role", default_to (get data "role") (Str "user")) ])
    as [token|fault] eqn:Hsign.
  - left. exists data, hashed, token.
    destruct (signup_created_run C req s data hashed token Hparse Hfind Hhash Hsign)
      as [Hres Hnext].
    repeat split; assumption.
  - destruct (signup_sign_fault_run req s data hashed fault Hparse Hfind Hhash Hsign)
      as [Hres Hnext].
    destruct (err_message fault =? "user already exists")%string.
    + right. left. split; assumption.
    + right. right. exists fault. rewrite Hres, Hnext. repeat split.
Qed.

End Flows.

(** Bo signs up and then signs in. *)
Lemma signup_then_signin_witness :
  st_res (serve (signin production) signin_bo (serve (signup production) signup_bo one_user)) =
    mkResponse 200
      (Some (Obj [ ("message", Str "User signed in successfully");
                   ("user", Obj [ ("id", Num 2); ("name", Str "Bo");
                                  ("email", Str "bo@b.com"); ("role", Str "user") ]) ]))
      [SetCookie "token" (Str "jwt:2") (cookies_getOptions production)].
Proof.
  destruct (signup_then_signin production signup_bo signin_bo one_user
              [ ("name", Str "Bo"); ("email", Str "bo@b.com");
                ("password", Str "secret2"); ("role", Str "user") ]
              [ ("email", Str "bo@b.com"); ("password", Str "secret2") ]
              "bo@b.com" (sample_hash (Str "secret2")) (Str "jwt:2"))
    as (_ & Hres & _);
    [reflexivity | reflexivity | reflexivity | reflexivity
     | reflexivity | reflexivity | reflexivity | reflexivity |].
  exact Hres.
Defined.

(** Bo signs up twice. *)
Lemma signup_twice_witness :
  st_res (serve (signup production) signup_bo (serve (signup production) signup_bo one_user)) =
    mkResponse 409 (Some (Obj [ ("error", Str "User already exists") ])) []
  /\ length (rows (st_db (serve (signup production) signup_bo
                            (serve (signup production) signup_bo one_user)))) = 2%nat.
Proof.
  destruct (signup_twice production signup_bo signup_bo one_user
              [ ("name", Str "Bo"); ("email", Str "bo@b.com");
                ("password", Str "secret2"); ("role", Str "user") ]
              [ ("name", Str "Bo"); ("email", Str "bo@b.com");
                ("password", Str "secret2"); ("role", Str "user") ]
              "bo@b.com" (sample_hash (Str "secret2")) (Str "jwt:2"))
    as (_ & Hrows & Hres & _ & Hdb);
    [reflexivity | reflexivity | reflexivity | reflexivity
     | reflexivity | reflexivity | reflexivity |].
  split; [exact Hres|].
  rewrite Hdb, Hrows. reflexivity.
Defined.

(** Bo signs up while the signing secret is missing. *)
Lemma signup_token_fault_keeps_record_witness :
  st_res (run (signup broken_signer) signup_bo one_user) = fresh_response
  /\ st_next (run (signup broken_signer) signup_bo one_user) =
     [Some (Error "secretOrPrivateKey must have a value")]
  /\ length (rows (st_db (run (signup broken_signer) signup_bo one_user))) = 2%nat.
Proof.
  destruct (signup_token_fault_keeps_record broken_signer signup_bo one_user
              [ ("name", Str "Bo"); ("email", Str "bo@b.com");
                ("password", Str "secret2"); ("role", Str "user") ]
              (sample_hash (Str "secret2"))
              (Error "secretOrPrivateKey must have a value"))
    as (Hres & Hnext & Hrows & _);
    [reflexivity | reflexivity | reflexivity | reflexivity | discriminate |].
  split; [exact Hres|]. split; [exact Hnext|].
  rewrite Hrows. reflexivity.
Defined.

Lemma signup_hashing_fault_forwarded_witness :
  st_res (run (signup broken_bcrypt) signup_bo one_user) = fresh_response
  /\ st_next (run (signup broken_bcrypt) signup_bo one_user) =
     [Some (Error "Password hashing failed")]
  /\ st_db (run (signup broken_bcrypt) signup_bo one_user) = st_db one_user.
Proof.
  destruct (signup_hashing_fault_forwarded broken_bcrypt signup_bo one_user
              [ ("name", Str "Bo"); ("email", Str "bo@b.com");
                ("password", Str "secret2"); ("role", Str "user") ]
              (Error "data and salt arguments required"))
    as (Hres & Hnext & Hdb & _);
    [reflexivity | reflexivity | reflexivity |].
  split; [exact Hres|]. split; [exact Hnext | exact Hdb].
Defined.

Lemma signin_compare_fault_forwarded_witness :
  st_res (run (signin broken_bcrypt) signin_al one_user) = fresh_response
  /\ st_next (run (signin broken_bcrypt) signin_al one_user) =
     [Some (Error "Password comparison failed")].
Proof.
  destruct (signin_compare_fault_forwarded broken_bcrypt signin_al one_user
              [ ("email", Str "al@b.com"); ("password", Str "secret1") ] al
              (Error "data and hash arguments required"))
    as (Hres & Hnext & _);
    [reflexivity | reflexivity | reflexivity |].
  split; [exact Hres | exact Hnext].
Defined.

(* ================================================================== *)
(** * Further properties of the admission control gate *)

Section GateOutcomes.

Variable C : collaborators.

Ltac gate_run H :=
  unfold run, securityMiddleware, try_catch, bind, lift;
  rewrite H; simpl.

(** X12: a denial whose reason is a bot is answered 403 with the bot
    message, is logged with ip, user agent and path, and is not forwarded. *)
Theorem bot_denied (req : request) (s : state) (d : decision) :
  arcjet_protect C (rule_for req) req = Normal d ->
  isDenied d = true -> isBot (dec_reason d) = true ->
  let s' := run (securityMiddleware C) req s in
  st_res s' =
    mkResponse 403
      (Some (Obj [ ("error", Str "Access denied for bots");
                   ("message", Str "Your request has been identified as coming from a bot and has been blocked.") ]))
      (cookie_ops (st_res s))
  /\ st_next s' = st_next s
  /\ added (st_log s) (st_log s') =
       [mkLog LoggerWarn "Bot request blocked"
          (Meta [ ("ip", req_ip req);
                  ("userAgent", req_get req "User-Agent");
                  ("path", Str (req_path req)) ])].
Proof.
  intros Hd Hdenied Hbot s'. subst s'. gate_run Hd.
  rewrite Hdenied, Hbot. simpl. repeat split. apply added_app.
Qed.

(** X13: a decision that is not a denial (allow, challenge, or an error of
    the decision service) is forwarded whatever its reason: [next()] is
    called once, nothing is logged and the response is untouched. *)
Theorem not_denied_forwarded (req : request) (s : state) (d : decision) :
  arcjet_protect C (rule_for req) req = Normal d ->
  isDenied d = false ->
  run (securityMiddleware C) req s =
  mkState (st_db s) (st_log s) (st_res s) (st_next s ++ [None]).
Proof.
  intros Hd Hdenied. gate_run Hd. rewrite Hdenied. reflexivity.
Qed.

(** X14: whatever the decision service does, the gate either answers (403,
    429 or 500) without calling [next], or calls [next()] once and leaves
    response and log untouched; never both, never neither. It sets no
    cookie and does not touch the store. *)
Theorem gate_outcomes (req : request) (s : state) :
  let s' := run (securityMiddleware C) req s in
  st_db s' = st_db s
  /\ cookie_ops (st_res s') = cookie_ops (st_res s)
  /\ ((st_next s' = st_next s
       /\ (exists body, sent (st_res s') = Some body)
       /\ In (statusCode (st_res s')) [403; 429; 500])
      \/ (st_next s' = st_next s ++ [None]
          /\ st_res s' = st_res s
          /\ st_log s' = st_log s)).
Proof.
  intros s'. subst s'.
  destruct (arcjet_protect C (rule_for req) req) as [[verdict why]|fault] eqn:Hd;
    gate_run Hd.
  - destruct verdict, why; simpl;
      (split; [reflexivity|]); (split; [reflexivity|]);
      first [ right; repeat split; reflexivity
            | left; split; [reflexivity|]; split; [eexists; reflexivity|];
              simpl; tauto ].
  - split; [reflexivity|]. split; [reflexivity|].
    left. split; [reflexivity|]. split; [eexists; reflexivity|]. simpl. tauto.
Qed.

(** X15: the role's edge cases. An attached user without a role, or with a
    falsy one, is a guest. A role that is none of admin, user and guest gets
    no tier: the rule's maximum is [undefined], the rule is still named
    after the role, and a rate-limit denial is answered 429 with an
    [undefined] message. *)
Theorem gate_role_edges (req : request) (s : state) :
  (forall user,
     req_user req = Some user -> truthy (get user "role") = false ->
     role_of req = Str "guest"
     /\ rule_for req = mkRule "LIVE" "1m" (Num 5) "guest-rate-limit")
  /\ (forall r,
        role_of req = Str r -> r <> "admin" -> r <> "user" -> r <> "guest" ->
        rule_for req = mkRule "LIVE" "1m" Undefined (r ++ "-rate-limit")
        /\ forall d,
             arcjet_protect C (rule_for req) req = Normal d ->
             isDenied d = true -> isRateLimit (dec_reason d) = true ->
             st_res (run (securityMiddleware C) req s) =
               mkResponse 429
                 (Some (Obj [ ("error", Str "Rate limit exceeded");
                              ("message", Undefined) ]))
                 (cookie_ops (st_res s))).
Proof.
  split.
  - intros user Huser Hfalsy.
    assert (Hrole : role_of req = Str "guest").
    { unfold role_of, or_else. rewrite Huser, Hfalsy. reflexivity. }
    split; [exact Hrole|]. unfold rule_for. rewrite Hrole. reflexivity.
  - intros r Hrole Ha Hu Hg.
    assert (Htier : tier (Str r) = (Undefined, Undefined)).
    { unfold tier, is_string.
      apply String.eqb_neq in Ha, Hu, Hg. rewrite Ha, Hu, Hg. reflexivity. }
    split.
    + unfold rule_for. rewrite Hrole, Htier. reflexivity.
    + intros d Hd Hdenied Hrate. gate_run Hd.
      rewrite Hdenied. destruct (dec_reason d); try discriminate. simpl.
      rewrite Hrole, Htier. reflexivity.
Qed.

End GateOutcomes.

Lemma bot_denied_witness :
  st_res (run (securityMiddleware (denying BOT)) signin_al one_user) =
    mkResponse 403
      (Some (Obj [ ("error", Str "Access denied for bots");
                   ("message", Str "Your request has been identified as coming from a bot and has been blocked.") ]))
      []
  /\ st_next (run (securityMiddleware (denying BOT)) signin_al one_user) = [].
Proof.
  destruct (bot_denied (denying BOT) signin_al one_user (mkDecision DENY BOT))
    as (Hres & Hnext & _); [reflexivity | reflexivity | reflexivity |].
  split; [exact Hres | exact Hnext].
Defined.

(** The decision service reports an error of its own: the request passes. *)
Lemma not_denied_forwarded_witness :
  run (securityMiddleware (sample None (Normal (mkDecision ERROR ERROR_REASON))))
      signin_al one_user =
  mkState (st_db one_user) [] fresh_response [None].
Proof.
  apply (not_denied_forwarded (sample None (Normal (mkDecision ERROR ERROR_REASON)))
           signin_al one_user (mkDecision ERROR ERROR_REASON));
    reflexivity.
Defined.

(** A moderator over the limit. *)
Lemma gate_role_edges_witness :
  rule_for moderator_request = mkRule "LIVE" "1m" Undefined "moderator-rate-limit"
  /\ st_res (run (securityMiddleware (denying RATE_LIMIT)) moderator_request one_user) =
       mkResponse 429
         (Some (Obj [ ("error", Str "Rate limit exceeded"); ("message", Undefined) ]))
         [].
Proof.
  destruct (gate_role_edges (denying RATE_LIMIT) moderator_request one_user)
    as (_ & Hunknown).
  destruct (Hunknown "moderator") as [Hrule Hdeny];
    [reflexivity | discriminate | discriminate | discriminate |].
  split; [exact Hrule|].
  apply (Hdeny (mkDecision DENY RATE_LIMIT)); reflexivity.
Defined.

(* ================================================================== *)
(** * Further properties of the session cookie *)



(** X17: the session's life. After a sign-in that is answered 200, the
    client's next request carries the signed token in the cookie [token];
    after a sign-out that follows, it carries none. *)
Theorem signin_then_signout (C : collaborators) (req_in req_out req_next : request)
    (s : state) (data user : object) (token : value) (jar : object) :
  signInSchema_safeParse C (req_body req_in) = ParseOk data ->
  find (email_matches (get data "email")) (rows (st_db s)) = Some user ->
  bcrypt_compare C (get data "password") (get user "password") = Normal true ->
  jwttoken_sign C [ ("id", get user "id"); ("email", get user "email");
                    ("role", get user "role") ] = Normal token ->
  let s1 := serve (signin C) req_in s in
  let jar1 := client_after jar (st_res s1) in
  let s2 := serve (signout C) req_out s1 in
  let jar2 := client_after jar1 (st_res s2) in
  statusCode (st_res s1) = 200
  /\ cookies_get (with_cookies req_next jar1) "token" = token
  /\ statusCode (st_res s2) = 200
  /\ cookies_get (with_cookies req_next jar2) "token" = Undefined.
Proof.
  intros Hparse Hfind Hcmp Hsign s1 jar1 s2 jar2.
  destruct (signin_accepted_run C req_in (arrive s) data user token
              Hparse Hfind Hcmp Hsign) as [Hres1 _].
  fold (serve (signin C) req_in s) in Hres1. fold s1 in Hres1.
  subst jar2 s2 jar1. unfold serve at 1 2, run. rewrite !signout_run.
  unfold cookies_get, with_cookies, client_after. simpl.
  rewrite Hres1. simpl.
  repeat split.
  - apply get_set_same.
  - apply has_false_get, has_omit.
Qed.

Lemma signin_then_signout_witness :
  cookies_get
    (with_cookies signin_al
       (client_after [] (st_res (serve (signin production) signin_al one_user))))
    "token" = Str "jwt:1"
  /\ cookies_get
       (with_cookies signin_al
          (client_after
             (client_after [] (st_res (serve (signin production) signin_al one_user)))
             (st_res (serve (signout production) signin_al
                        (serve (signin production) signin_al one_user)))))
       "token" = Undefined.
Proof.
  destruct (signin_then_signout production signin_al signin_al signin_al one_user
              [ ("email", Str "al@b.com"); ("password", Str "secret1") ] al
              (Str "jwt:1") [])
    as (_ & Hget & _ & Hgone);
    [reflexivity | reflexivity | reflexivity | reflexivity |].
  split; [exact Hget | exact Hgone].
Defined.
